(** * SiLLM: LoRA adapter layers, the generation loop and the training loop

    A shallow embedding of [sillm/llm.py] and [sillm/training/lora.py].

    The numeric kernels live in the MLX runtime, outside the repository.
    Tensors are modelled as MathComp matrices over an arbitrary real field
    [R] (exact arithmetic: the rounding of float16/float32 is not part of
    the model, a cast only changes the dtype tag of an array), and the
    runtime's opaque services (random draws, dropout masks, the quantization
    kernels) are fields of the class [Runtime].  The decoder with its
    optimizer, the tokenizer and the dataset are the other collaborators;
    they are classes as well.  Counts and sizes ([num_tokens], [flush],
    [batch_size], [epochs], ...) are natural numbers; a Python call that
    raises is modelled by the exception and the state it leaves behind. *)

From HB Require Import structures.
From Stdlib Require Import String Ascii DecimalString.
From mathcomp Require Import boot order algebra.

Set Implicit Arguments.
Unset Strict Implicit.
Unset Printing Implicit Defensive.

Import Order.TTheory GRing.Theory Num.Theory.
Local Open Scope ring_scope.

(** ** Python exceptions and outcomes *)

Inductive exn : Type :=
  | TypeError
  | ZeroDivisionError
  | AttributeError
  | AssertionError
  | ValueError
  | StopIteration.

(** The result of a call that either returns a value or raises. *)
Inductive result (T : Type) : Type :=
  | Ok of T
  | Raise of exn.
Arguments Raise {T} _.

Definition rbind {T U : Type} (r : result T) (k : T -> result U) : result U :=
  match r with
  | Ok x => k x
  | Raise e => Raise e
  end.

Definition is_ok {T : Type} (r : result T) : bool :=
  if r is Ok _ then true else false.

Declare Scope py_scope.
Delimit Scope py_scope with py.
Notation "'do' x <- m ; k" := (rbind m (fun x => k))
  (at level 200, x name, m at level 100, k at level 200,
   format "'[v' 'do'  x  <-  m ; '/' k ']'") : py_scope.
Local Open Scope py_scope.

(** ** The tensor runtime (mlx.core, mlx.nn) *)

Inductive Dtype : Type := float16 | bfloat16 | float32.

Definition Dtype_eqb (d1 d2 : Dtype) : bool :=
  match d1, d2 with
  | float16, float16 | bfloat16, bfloat16 | float32, float32 => true
  | _, _ => false
  end.

(** Type promotion of a binary operation on two floating arrays. *)
Definition promote (d1 d2 : Dtype) : Dtype :=
  if Dtype_eqb d1 d2 then d1 else float32.

Section Arrays.
Variable R : realFieldType.

(** A two-dimensional array: a dtype tag and its entries.  Leading batch
    axes are flattened into the row index. *)
Record array (m n : nat) : Type := Array {
  dtype : Dtype;
  data : 'M[R]_(m, n)
}.

Definition astype m n (d : Dtype) (x : array m n) : array m n :=
  Array d (data x).

(** [a @ b] *)
Definition matmul m n p (a : array m n) (b : array n p) : array m p :=
  Array (promote (dtype a) (dtype b)) (data a *m data b).

(** [a + b] on arrays of one shape *)
Definition add m n (a b : array m n) : array m n :=
  Array (promote (dtype a) (dtype b)) (data a + data b).

(** [a + b] where the row vector [b] is broadcast over the rows of [a] *)
Definition add_row m n (a : array m n) (b : array 1 n) : array m n :=
  Array (promote (dtype a) (dtype b))
        (data a + \matrix_(i, j) data b 0 j).

(** [s * a] for a Python float [s]: the array keeps its dtype *)
Definition smul m n (s : R) (a : array m n) : array m n :=
  Array (dtype a) (s *: data a).

(** [a.transpose()] *)
Definition transpose m n (a : array m n) : array n m :=
  Array (dtype a) (data a)^T.

(** [mx.zeros(shape)] *)
Definition zeros m n : array m n := Array float32 0.

(** [a.size] *)
Definition size_of m n (_ : array m n) : nat := (m * n)%N.

End Arrays.

(** The services of the runtime this code calls and does not define. *)
Class Runtime (R : realFieldType) : Type := {
  (** state of the global random generator *)
  rng : Type;
  (** [mx.random.uniform(low=-1/sqrt(fan_in), high=1/sqrt(fan_in), shape)] *)
  random_uniform : forall (fan_in m n : nat), rng -> array R m n * rng;
  (** [nn.Dropout(p)(x)]; the flag is the module's training mode *)
  nn_dropout : forall (p : R) (training : bool) m n,
      array R m n -> rng -> array R m n * rng;
  (** [mx.random.categorical(logits)] *)
  random_categorical : seq R -> rng -> nat * rng;
  (** packed weight, scales and biases of a quantized [m x n] weight *)
  qarray : nat -> nat -> Type;
  (** [mx.quantize(w, group_size, bits)] *)
  mx_quantize : forall m n, array R m n -> nat -> nat -> qarray m n;
  (** [mx.dequantize(w, scales, biases, group_size, bits)] *)
  mx_dequantize : forall m n, qarray m n -> nat -> nat -> 'M[R]_(m, n);
  (** dtype of the scales of a packed weight *)
  scales_dtype : forall m n, qarray m n -> Dtype
}.

(** ** mlx.nn layers *)

Record Linear (R : realFieldType) : Type := mkLinear {
  output_dims : nat;
  input_dims : nat;
  weight : array R output_dims input_dims;
  bias : option (array R 1 output_dims);
  name : option string
}.

Record QuantizedLinear (R : realFieldType) (mx : Runtime R) : Type :=
  mkQuantizedLinear {
  q_output_dims : nat;
  (** logical input width; the packed array has [q_input_dims * bits / 32]
      columns, from which the code recovers it as [shape[1] * (32 // bits)] *)
  q_input_dims : nat;
  group_size : nat;
  bits : nat;
  q_weight : qarray q_output_dims q_input_dims;
  q_bias : option (array R 1 q_output_dims);
  q_name : option string
}.

Module nn.
Section Layers.
Context {R : realFieldType} {mx : Runtime R}.

(** [nn.Linear(input_dims, output_dims, bias)]: a layer with freshly drawn
    weights; it has no [name] attribute yet. *)
Definition Linear_init (input_dims output_dims : nat) (bias : bool)
    (g : rng) : Linear R * rng :=
  let w := random_uniform input_dims output_dims input_dims g in
  let b := random_uniform input_dims 1 output_dims w.2 in
  (mkLinear w.1 (if bias then Some b.1 else None) None,
   if bias then b.2 else w.2).

(** [nn.Linear.__call__]: [x @ weight.T + bias] *)
Definition Linear_call (l : Linear R) b (x : array R b (input_dims l)) :
    array R b (output_dims l) :=
  let y := matmul x (transpose (weight l)) in
  if bias l is Some bv then add_row y bv else y.

(** [nn.QuantizedLinear.from_linear(linear, group_size, bits)] *)
Definition QuantizedLinear_from_linear (l : Linear R) (group_size bits : nat) :
    QuantizedLinear mx :=
  mkQuantizedLinear group_size bits
    (mx_quantize (weight l) group_size bits) (bias l) None.

(** [nn.QuantizedLinear.__call__]: the quantized matrix product computes
    [x @ dequantize(weight).T] and adds the bias. *)
Definition QuantizedLinear_call (q : QuantizedLinear mx) b
    (x : array R b (q_input_dims q)) : array R b (q_output_dims q) :=
  let w := Array (scales_dtype (q_weight q))
                 (mx_dequantize (q_weight q) (group_size q) (bits q)) in
  let y := matmul x (transpose w) in
  if q_bias q is Some bv then add_row y bv else y.

End Layers.
Arguments Linear_call {R} l {b} x.
Arguments QuantizedLinear_call {R mx} q {b} x.
End nn.

(** ** training/lora.py: class LoRALinear *)

(** The layer an adapter wraps: [isinstance(linear, nn.QuantizedLinear)]
    tells the two apart. *)
Inductive layer (R : realFieldType) (mx : Runtime R) : Type :=
  | Plain of Linear R
  | Quantized of QuantizedLinear mx.
Arguments Plain {R mx} _.

Section LayerShape.
Context {R : realFieldType} {mx : Runtime R}.

(** [linear.weight.shape], with the packed width of a quantized weight
    multiplied back by [32 // bits] *)
Definition out_dims (l : layer mx) : nat :=
  match l with Plain p => output_dims p | Quantized q => q_output_dims q end.

Definition in_dims (l : layer mx) : nat :=
  match l with Plain p => input_dims p | Quantized q => q_input_dims q end.

(** ["bias" in linear] *)
Definition has_bias (l : layer mx) : bool :=
  match l with Plain p => isSome (bias p) | Quantized q => isSome (q_bias q) end.

Definition layer_name (l : layer mx) : option string :=
  match l with Plain p => name p | Quantized q => q_name q end.

(** [linear(x)] *)
Definition layer_call (l : layer mx) b :
    array R b (in_dims l) -> array R b (out_dims l) :=
  match l with
  | Plain p => @nn.Linear_call R p b
  | Quantized q => @nn.QuantizedLinear_call R mx q b
  end.

End LayerShape.
Arguments layer_call {R mx} l {b} x.

(** The adapter.  Its factors are shaped after the wrapped layer, as
    [from_linear] and [__init__] build them. *)
Record LoRALinear (R : realFieldType) (mx : Runtime R) : Type := mkLoRALinear {
  linear : layer mx;
  rank : nat;
  lora_dropout : R;
  scale : R;
  lora_a : array R (in_dims linear) rank;
  lora_b : array R rank (out_dims linear);
  lora_name : option string
}.

Module LoRALinear.
Section Adapter.
Context {R : realFieldType} {mx : Runtime R}.

(** Lines 82-91 of [__init__], for the layer the adapter ends up holding:
    the dropout module, the scale and the two factors. *)
Definition init_lora_weights (linear : layer mx) (rank : nat)
    (alpha dropout scale : R) (g : rng) : result (LoRALinear mx) * rng :=
  (* nn.Dropout(p=dropout) refuses a probability outside [0, 1) *)
  if (dropout < 0) || (1 <= dropout) then (Raise ValueError, g)
  (* scale * (alpha / rank) *)
  else if rank == 0%N then (Raise ZeroDivisionError, g)
  else
    let a := random_uniform (in_dims linear) (in_dims linear) rank g in
    (Ok (@mkLoRALinear R mx linear rank dropout (scale * (alpha / rank%:R))
           a.1 (zeros R rank (out_dims linear)) None),
     a.2).

(** [LoRALinear(input_dims, output_dims, rank, alpha, dropout, scale, bias)] *)
Definition init (input_dims output_dims rank : nat) (alpha dropout scale : R)
    (bias : bool) (g : rng) : result (LoRALinear mx) * rng :=
  let fresh := nn.Linear_init input_dims output_dims bias g in
  init_lora_weights (Plain fresh.1) rank alpha dropout scale fresh.2.

Definition set_name (a : LoRALinear mx) (n : option string) : LoRALinear mx :=
  @mkLoRALinear R mx (linear a) (rank a) (lora_dropout a) (scale a)
                (lora_a a) (lora_b a) n.

(** [LoRALinear.from_linear]: the constructor runs on the shape of
    [linear] (its own fresh layer only advances the random generator),
    then the adapter takes [linear] and its name.  The layer is taken to
    carry its [name] attribute, as every module of a model does once
    [_update_names] has run; on a layer without it [linear.name] raises
    [AttributeError], which is not modelled here. *)
Definition from_linear (linear : layer mx) (rank : nat)
    (alpha dropout scale : R) (g : rng) : result (LoRALinear mx) * rng :=
  let output_dims := out_dims linear in
  let input_dims := in_dims linear in
  let bias := has_bias linear in
  let fresh := nn.Linear_init input_dims output_dims bias g in
  let lora_lin := init_lora_weights linear rank alpha dropout scale fresh.2 in
  (do a <- lora_lin.1; Ok (set_name a (layer_name linear)), lora_lin.2).

(** [lora_size] *)
Definition lora_size (self : LoRALinear mx) : nat :=
  (size_of (lora_a self) + size_of (lora_b self))%N.

(** [__call__] *)
Definition call (self : LoRALinear mx) (training : bool) b
    (x : array R b (in_dims (linear self))) (g : rng) :
    array R b (out_dims (linear self)) * rng :=
  let dtype :=
    match linear self with
    | Plain p => dtype (weight p)
    | Quantized q => scales_dtype (q_weight q)
    end in
  let y := layer_call (linear self) (astype dtype x) in
  let d := nn_dropout (lora_dropout self) training x g in
  let z := matmul (matmul d.1 (lora_a self)) (lora_b self) in
  (add y (smul (scale self) z), d.2).

(** [merge] *)
Definition merge (self : LoRALinear mx) (g : rng) : layer mx * rng :=
  match linear self as l
        return array R (in_dims l) (rank self) ->
               array R (rank self) (out_dims l) -> layer mx * rng with
  | Plain linear => fun lora_a lora_b =>
      let weight := weight linear in
      let dtype := dtype weight in
      let update := transpose (matmul lora_a lora_b) in
      let weight := astype dtype (add weight (smul (scale self) update)) in
      (* linear.weight = weight; return linear *)
      (Plain (mkLinear weight (bias linear) (name linear)), g)
  | Quantized linear => fun lora_a lora_b =>
      let dtype := float16 in
      let group_size := group_size linear in
      let bits := bits linear in
      let weight := Array (scales_dtype (q_weight linear))
                      (mx_dequantize (q_weight linear) group_size bits) in
      let update := transpose (matmul lora_a lora_b) in
      let weight := astype dtype (add weight (smul (scale self) update)) in
      (* output_dims, input_dims = weight.shape *)
      let output_dims := q_output_dims linear in
      let input_dims := q_input_dims linear in
      let bias := isSome (q_bias linear) in
      (* the merged [weight] is not used below this point *)
      let linear := nn.Linear_init input_dims output_dims bias g in
      (Quantized (nn.QuantizedLinear_from_linear linear.1 group_size bits),
       linear.2)
  end (lora_a self) (lora_b self).

End Adapter.
Arguments call {R mx} self training {b} x g.
End LoRALinear.

(** ** The module tree *)

(** A slot of the tree: a linear layer, plain or quantized, an adapter, or
    any other module (with its [name], if set).  An adapter sits in the
    slot of the layer it wraps and holds that layer as its child; the child
    is reached through the adapter. *)
Inductive Module (R : realFieldType) (mx : Runtime R) : Type :=
  | MLinear of Linear R
  | MQuantizedLinear of QuantizedLinear mx
  | MLoRALinear of LoRALinear mx
  | MOther of option string.
Arguments MLinear {R mx} _.
Arguments MOther {R mx} _.

(** The model: its slots keyed by dotted path, whether the base parameters
    are frozen and whether the modules are in training mode. *)
Record Model (R : realFieldType) (mx : Runtime R) : Type := mkModel {
  named_modules : seq (string * Module mx);
  frozen : bool;
  training : bool
}.

Section Tree.
Context {R : realFieldType} {mx : Runtime R}.

Definition of_layer (l : layer mx) : Module mx :=
  match l with Plain p => MLinear p | Quantized q => MQuantizedLinear q end.

Definition key_eqb (k : string) (e : string * Module mx) : bool :=
  String.eqb k e.1.

(** Value bound to [key] in a list of replacements: the last binding wins,
    as in the dictionary [tree_unflatten] builds. *)
Fixpoint lookup (key : string) (repl : seq (string * Module mx)) :
    option (Module mx) :=
  if repl is e :: repl' then
    if lookup key repl' is Some m then Some m
    else if key_eqb key e then Some e.2 else None
  else None.

(** [model.update_modules(tree_unflatten(repl))]: every slot named in
    [repl] takes the module given for it.  The tree utilities of the
    runtime are taken to accept every list. *)
Definition update_modules (model : Model mx) (repl : seq (string * Module mx)) :
    Model mx :=
  mkModel [seq (e.1, if lookup e.1 repl is Some m then m else e.2)
          | e <- named_modules model]
          (frozen model) (training model).

(** [model.freeze()] *)
Definition freeze (model : Model mx) : Model mx :=
  mkModel (named_modules model) true (training model).

(** [model.train(mode)] *)
Definition set_train (model : Model mx) (mode : bool) : Model mx :=
  mkModel (named_modules model) (frozen model) mode.

(** [module.name = name] on an adapter and on its child [linear] *)
Definition rename_adapter (key : string) (a : LoRALinear mx) : LoRALinear mx :=
  let child := Some (key ++ ".linear")%string in
  match linear a as l
        return array R (in_dims l) (rank a) ->
               array R (rank a) (out_dims l) -> LoRALinear mx with
  | Plain p => fun la lb =>
      @mkLoRALinear R mx (Plain (mkLinear (weight p) (bias p) child))
                    (rank a) (lora_dropout a) (scale a) la lb (Some key)
  | Quantized q => fun la lb =>
      @mkLoRALinear R mx
        (Quantized (mkQuantizedLinear (group_size q) (bits q) (q_weight q)
                                      (q_bias q) child))
        (rank a) (lora_dropout a) (scale a) la lb (Some key)
  end (lora_a a) (lora_b a).

(** [module.name = name] *)
Definition rename (key : string) (m : Module mx) : Module mx :=
  match m with
  | MLinear p => MLinear (mkLinear (weight p) (bias p) (Some key))
  | MQuantizedLinear q =>
      MQuantizedLinear
        (mkQuantizedLinear (group_size q) (bits q) (q_weight q) (q_bias q)
                           (Some key))
  | MLoRALinear a => MLoRALinear (rename_adapter key a)
  | MOther _ => MOther (Some key)
  end.

End Tree.

(** ** The collaborators of the wrapper *)

(** The decoder (sillm.llama, sillm.mixtral), differentiation and the
    optimizer, as far as [generate], [evaluate] and [train] use them. *)
Class Engine (R : realFieldType) (mx : Runtime R) : Type := {
  (** the key/value cache *)
  cache : Type;
  (** [model(tokens, cache)]: logits for every position fed, and the cache.
      The pass runs every layer of the model, the adapters among them; an
      adapter in training mode draws its dropout mask from the random
      generator, which is therefore threaded through. *)
  forward : Model mx -> seq nat -> option cache -> rng ->
            (seq (seq R) * cache) * rng;
  (** [len(model.layers)] *)
  model_layers : Model mx -> nat;
  (** a batch of the dataset *)
  batch : Type;
  (** [model.loss] on a batch: mean loss and number of tokens *)
  model_loss : Model mx -> batch -> R * nat;
  grads : Type;
  (** [nn.value_and_grad(model, loss)] on a batch *)
  loss_value_and_grad : Model mx -> batch -> (R * nat) * grads;
  adam : Type;
  (** [optim.Adam(learning_rate)] *)
  adam_init : R -> adam;
  (** [optimizer.update(model, grad)] *)
  adam_update : adam -> Model mx -> grads -> Model mx * adam
}.

Class Tokenizer : Type := {
  encode : string -> seq nat;
  decode : seq nat -> string;
  eos_id : nat
}.

(** sillm.training.dataset.Dataset *)
Class DatasetOps (batch : Type) : Type := {
  Dataset : Type;
  (** [len(dataset)] *)
  len : Dataset -> nat;
  (** [dataset.iterate_batches(batch_size, train)]: the batches the
      iterator yields (of an endless iterator, a prefix as long as the
      caller can consume), and the dataset once the iterator is dropped *)
  iterate_batches : Dataset -> nat -> bool -> seq batch * Dataset
}.

(** ** llm.py: class LLM *)

Record LLM (R : realFieldType) (mx : Runtime R) : Type := mkLLM {
  model : Model mx;
  (** [None], or group size and bits *)
  _quantization : option (nat * nat)
}.

(** What a consumer that drains the generator of [generate] observes:
    the chunks yielded, each with the token ids that were decoded into its
    text and the value of [stats["num_tokens"]] when it was yielded; how
    often the inner generator [generate_step] was advanced (one forward
    pass and one sampled token each time); and the exception that ended
    the iteration, if any. *)
Record run : Type := mkRun {
  yields : seq (seq nat * nat);
  sampling_steps : nat;
  raised : option exn
}.

Definition yield (chunk : seq nat * nat) (r : run) : run :=
  mkRun (chunk :: yields r) (sampling_steps r) (raised r).

Module LLM.
Section Wrapper.
Context {R : realFieldType} {mx : Runtime R} {eng : Engine mx} {tok : Tokenizer}.

(** [_update_names] *)
Definition _update_names (self : LLM mx) : LLM mx :=
  mkLLM (mkModel [seq (e.1, rename e.1 e.2) | e <- named_modules (model self)]
                 (frozen (model self)) (training (model self)))
        (_quantization self).

Definition mem_string (s : string) (l : seq string) : bool :=
  has (String.eqb s) l.

(** The lambda [linear_class_predicate] of [quantize], on a leaf module.
    [and] evaluates its operands from the left and stops at the first
    false one; [m.name] needs the attribute, [not in] needs a container. *)
Definition linear_class_predicate (excluded : option (seq string))
    (m : Module mx) : result bool :=
  match m with
  | MLinear p =>
      if output_dims p != 8%N then
        match name p, excluded with
        | None, _ => Raise AttributeError
        | Some _, None => Raise TypeError
        | Some n, Some ex => Ok (~~ mem_string n ex)
        end
      else Ok false
  | _ => Ok false
  end.

(** The adapter with its plain child replaced by the quantized one. *)
Definition quantize_child (a : LoRALinear mx) (group_size bits : nat) :
    LoRALinear mx :=
  match linear a as l
        return array R (in_dims l) (rank a) ->
               array R (rank a) (out_dims l) -> LoRALinear mx with
  | Plain p => fun la lb =>
      @mkLoRALinear R mx
        (Quantized (nn.QuantizedLinear_from_linear p group_size bits))
        (rank a) (lora_dropout a) (scale a) la lb (lora_name a)
  | Quantized _ => fun _ _ => a
  end (lora_a a) (lora_b a).

(** [_quantize_if_linear] of [nn.QuantizedLinear.quantize_module], at the
    leaf (or leaves) below one slot: the child of an adapter is a leaf. *)
Definition _quantize_if_linear (pred : Module mx -> result bool)
    (group_size bits : nat) (m : Module mx) : result (Module mx) :=
  match m with
  | MLinear p =>
      do b <- pred m;
      Ok (if b then MQuantizedLinear
                      (nn.QuantizedLinear_from_linear p group_size bits)
          else m)
  | MLoRALinear a =>
      do b <- pred (of_layer (linear a));
      Ok (if b then MLoRALinear (quantize_child a group_size bits) else m)
  | _ => do b <- pred m; Ok m
  end.

(** [tree_map] over the leaves: the first exception ends it. *)
Fixpoint tree_map (f : Module mx -> result (Module mx))
    (leaves : seq (string * Module mx)) : result (seq (string * Module mx)) :=
  if leaves is e :: leaves' then
    do m <- f e.2;
    do rest <- tree_map f leaves';
    Ok ((e.1, m) :: rest)
  else Ok [::].

(** [nn.QuantizedLinear.quantize_module]: all leaves are mapped first, the
    model is updated afterwards. *)
Definition quantize_module (model : Model mx) (group_size bits : nat)
    (pred : Module mx -> result bool) : result (Model mx) :=
  do leaves <- tree_map (_quantize_if_linear pred group_size bits)
                        (named_modules model);
  Ok (update_modules model leaves).

(** [quantize]: the outcome and the wrapper afterwards. *)
Definition quantize (self : LLM mx) (group_size bits : nat)
    (excluded : option (seq string)) : result unit * LLM mx :=
  if _quantization self is None then
    let quantization := (group_size, bits) in
    let self := mkLLM (model self) (Some quantization) in
    match quantize_module (model self) group_size bits
                          (linear_class_predicate excluded) with
    | Ok model' => (Ok tt, _update_names (mkLLM model' (_quantization self)))
    | Raise e => (Raise e, self)
    end
  else (Ok tt, self).

(** *** generate *)

(** [mx.argmax(logits, axis=-1)]: the first index of the greatest entry *)
Fixpoint argmax_from (best_i : nat) (best : R) (i : nat) (s : seq R) : nat :=
  if s is x :: s' then
    if best < x then argmax_from i x i.+1 s'
    else argmax_from best_i best i.+1 s'
  else best_i.

Definition argmax (logits : seq R) : nat :=
  if logits is x :: s then argmax_from 0 x 1 s else 0%N.

(** [sample] *)
Definition sample (temp : R) (logits : seq R) (g : rng) : nat * rng :=
  if temp == 0 then (argmax logits, g)
  else random_categorical [seq x * (1 / temp) | x <- logits] g.

(** The generator [generate_step], suspended: before its first [next], or
    at a [yield y] with the cache in hand. *)
Inductive step_state : Type :=
  | NotStarted
  | Yielded of nat & cache.

(** One [next(generate_step())]: runs to the next [yield y]. *)
Definition generate_step (self : LLM mx) (prompt : seq nat) (temp : R)
    (st : step_state) (g : rng) : nat * step_state * rng :=
  match st with
  | NotStarted =>
      let out := forward (model self) prompt None g in
      (* logits[:, -1, :] *)
      let y := sample temp (last [::] out.1.1) out.2 in
      (y.1, Yielded y.1 out.1.2, y.2)
  | Yielded y cache =>
      let out := forward (model self) [:: y] (Some cache) g in
      (* logits.squeeze(1) *)
      let y := sample temp (head [::] out.1.1) out.2 in
      (y.1, Yielded y.1 out.1.2, y.2)
  end.

(** The statements after the [for] loop: the last chunk is always yielded. *)
Definition finish (tokens : seq nat) (num_tokens steps : nat) : run :=
  mkRun [:: (tokens, num_tokens + size tokens)%N] steps None.

(** The [for token, _ in zip(generate_step(), range(num_tokens))] loop.
    [zip] asks its first argument for an item before its second one:
    a token is drawn from [generate_step], and only then the range is
    consulted; [range] counts down the iterations that are left.
    [tokens] and [num_tokens] are the pending tokens and the counter of
    [stats]; [steps] counts the draws from [generate_step]. *)
Fixpoint generate_loop (self : LLM mx) (prompt : seq nat) (temp : R)
    (flush : nat) (range : nat) (st : step_state) (g : rng)
    (tokens : seq nat) (num_tokens steps : nat) : run :=
  let nxt := generate_step self prompt temp st g in
  let token := nxt.1.1 in
  let steps := steps.+1 in
  if range is range'.+1 then
    if token == eos_id then finish tokens num_tokens steps
    else
      let tokens := rcons tokens token in
      (* len(tokens) % flush *)
      if flush == 0%N then mkRun [::] steps (Some ZeroDivisionError)
      else if (size tokens %% flush)%N == 0%N then
        let num_tokens := (num_tokens + size tokens)%N in
        yield (tokens, num_tokens)
              (generate_loop self prompt temp flush range' nxt.1.2 nxt.2
                             [::] num_tokens steps)
      else generate_loop self prompt temp flush range' nxt.1.2 nxt.2
                         tokens num_tokens steps
  else finish tokens num_tokens steps.

(** [generate], drained, at the level of token ids. *)
Definition generate_tokens (self : LLM mx) (prompt : string) (temp : R)
    (num_tokens flush : nat) (g : rng) : run :=
  let prompt := encode prompt in
  generate_loop self prompt temp flush num_tokens NotStarted g [::] 0 0.

(** [generate], drained: the [(result, stats["num_tokens"])] pairs. *)
Definition generate (self : LLM mx) (prompt : string) (temp : R)
    (num_tokens flush : nat) (g : rng) : seq (string * nat) :=
  [seq (decode c.1, c.2)
  | c <- yields (generate_tokens self prompt temp num_tokens flush g)].

(** All the token ids emitted, in order. *)
Definition emitted (r : run) : seq nat := flatten [seq c.1 | c <- yields r].

(** *** verify_weights and dequantize *)

(** The names of [tree_flatten(self.model.parameters())] *)
Variable parameter_names : Model mx -> seq string.

(** The loop of [verify_weights] over the parameter names, against the keys
    of [weights]: the flag, and the keys a warning was logged for. *)
Fixpoint verify_weights_loop (names weights : seq string) (result : bool)
    (warned : seq string) : bool * seq string :=
  if names is name :: names' then
    if ~~ mem_string name weights then
      verify_weights_loop names' weights false (rcons warned name)
    else verify_weights_loop names' weights result warned
  else (result, warned).

(** [verify_weights] *)
Definition verify_weights (self : LLM mx) (weights : seq string) :
    bool * seq string :=
  verify_weights_loop (parameter_names (model self)) weights true [::].

(** [isinstance(module, nn.QuantizedLinear)] for a module of
    [named_modules()]: the slot itself, or the child of an adapter. *)
Definition holds_quantized (m : Module mx) : bool :=
  match m with
  | MQuantizedLinear _ => true
  | MLoRALinear a => if linear a is Quantized _ then true else false
  | _ => false
  end.

(** The loop of [dequantize].  For a quantized module the body reaches
    [weight = module.weight()], a call of the packed array (the attribute
    the rest of the code reads as [module.weight]), which raises
    [TypeError]; the statements after it are never run, and [layers] is
    still empty when the loop ends. *)
Fixpoint dequantize_loop (modules : seq (string * Module mx))
    (layers : seq (string * Module mx)) : result (seq (string * Module mx)) :=
  if modules is e :: modules' then
    if holds_quantized e.2 then Raise TypeError
    else dequantize_loop modules' layers
  else Ok layers.

(** [dequantize]: the outcome and the wrapper afterwards. *)
Definition dequantize (self : LLM mx) : result unit * LLM mx :=
  if _quantization self is Some _ then
    match dequantize_loop (named_modules (model self)) [::] with
    | Ok layers =>
        let self := mkLLM (update_modules (model self) layers) None in
        (Ok tt, _update_names self)
    | Raise e => (Raise e, self)
    end
  else (Ok tt, self).

End Wrapper.
Arguments NotStarted {R mx eng}.
End LLM.

(** ** training/lora.py: class TrainableLoRA *)

(** The dictionary [self._lora]. *)
Record lora_config : Type := mkLoraConfig {
  num_layers : int;
  target_modules : string;
  cfg_rank : nat
}.

(** The wrapper.  [_lora_modules] pairs keys with the adapter objects that
    sit in the tree: the list is kept as the keys, and the adapters are
    read through the tree, so that an update of a factor in the tree is
    seen through the list, as it is through the shared objects. *)
Record TrainableLoRA (R : realFieldType) (mx : Runtime R) : Type :=
  mkTrainableLoRA {
  llm : LLM mx;
  _lora : option lora_config;
  _lora_modules : seq string
}.

(** A line written to the progress bar by [train]. *)
Inductive report (R : realFieldType) : Type :=
  | TrainingLoss of nat & option R
  | ValidationLoss of nat & option R
  | CallbackMessage of nat & string.
Arguments CallbackMessage {R} _ _.

(** Everything [train] keeps between two steps.  [updates] counts the calls
    of [optimizer.update]: the training steps carried out so far. *)
Record train_state (R : realFieldType) (mx : Runtime R) (eng : Engine mx)
    (ds : DatasetOps batch) : Type := mkTrainState {
  t_self : TrainableLoRA mx;
  t_optimizer : adam;
  t_losses : seq R;
  t_num_tokens : nat;
  t_training : Dataset;
  t_validation : Dataset;
  t_written : seq (report R);
  updates : nat
}.

Module TrainableLoRA.
Section Wrapper.
Context {R : realFieldType} {mx : Runtime R} {eng : Engine mx}.
Context {ds : DatasetOps batch}.

Definition with_model (self : TrainableLoRA mx) (m : Model mx) :
    TrainableLoRA mx :=
  mkTrainableLoRA (mkLLM m (_quantization (llm self)))
                  (_lora self) (_lora_modules self).

(** The [(key, module)] pairs of [self._lora_modules]. *)
Definition lora_modules (self : TrainableLoRA mx) :
    seq (string * LoRALinear mx) :=
  pmap (fun key =>
          if lookup key (named_modules (model (llm self))) is
               Some (MLoRALinear a)
          then Some (key, a) else None)
       (_lora_modules self).

(** [s.endswith(suffix)] *)
Definition endswith (suffix s : string) : bool :=
  (String.length suffix <= String.length s)%N &&
  String.eqb (substring (String.length s - String.length suffix)
                        (String.length suffix) s)
             suffix.

(** [re.search(r"\.attention\.(wq|wv)$", key)] *)
Definition is_query_value (key : string) : bool :=
  endswith ".attention.wq" key || endswith ".attention.wv" key.

(** [LoRALinear.from_linear(module, ...)] on a slot of the tree:
    [linear.weight.shape] needs a layer with a weight. *)
Definition wrap (m : Module mx) (rank : nat) (alpha dropout scale : R)
    (g : rng) : result (LoRALinear mx) * rng :=
  match m with
  | MLinear p => LoRALinear.from_linear (Plain p) rank alpha dropout scale g
  | MQuantizedLinear q =>
      LoRALinear.from_linear (Quantized q) rank alpha dropout scale g
  | _ => (Raise AttributeError, g)
  end.

(** The list comprehensions of [init_lora]: the selected slots are wrapped
    in order; the first exception ends the comprehension. *)
Fixpoint wrap_selected (select : string * Module mx -> bool)
    (slots : seq (string * Module mx)) (rank : nat) (alpha dropout scale : R)
    (g : rng) : result (seq (string * LoRALinear mx)) * rng :=
  if slots is e :: slots' then
    if select e then
      let a := wrap e.2 rank alpha dropout scale g in
      match a.1 with
      | Ok lora =>
          let rest := wrap_selected select slots' rank alpha dropout scale a.2 in
          (do r <- rest.1; Ok ((e.1, lora) :: r), rest.2)
      | Raise x => (Raise x, a.2)
      end
    else wrap_selected select slots' rank alpha dropout scale g
  else (Ok [::], g).

Definition is_linear (e : string * Module mx) : bool :=
  match e.2 with
  | MLinear _ | MQuantizedLinear _ => true
  | _ => false
  end.

(** [init_lora] *)
Definition init_lora (self : TrainableLoRA mx) (num_layers : int)
    (target_modules : string) (rank : nat) (alpha dropout scale : R)
    (g : rng) : result unit * TrainableLoRA mx * rng :=
  if _lora self is None then
    let self := with_model self (freeze (model (llm self))) in
    let num_layers :=
      if num_layers < 0 then (model_layers (model (llm self)))%:Z
      else num_layers in
    let self := mkTrainableLoRA (llm self)
                  (Some (mkLoraConfig num_layers target_modules rank))
                  (_lora_modules self) in
    let slots := named_modules (model (llm self)) in
    let selected :=
      if String.eqb target_modules "all_linear" then
        Some (wrap_selected is_linear slots rank alpha dropout scale g)
      else if String.eqb target_modules "query_value" then
        Some (wrap_selected (fun e => is_query_value e.1) slots
                            rank alpha dropout scale g)
      else None in
    match selected with
    | Some (Ok wrapped, g') =>
        let self := mkTrainableLoRA (llm self) (_lora self)
                                    [seq e.1 | e <- wrapped] in
        let model := update_modules (model (llm self))
                       [seq (e.1, MLoRALinear e.2) | e <- wrapped] in
        (* Enable training mode *)
        (Ok tt, with_model self (set_train model true), g')
    | Some (Raise x, g') => (Raise x, self, g')
    | None =>
        (* neither selector: the list is left as it was *)
        let model := update_modules (model (llm self))
                       [seq (e.1, MLoRALinear e.2) | e <- lora_modules self] in
        (Ok tt, with_model self (set_train model true), g)
    end
  else (Ok tt, self, g).

(** The list comprehension of [merge_and_unload_lora]. *)
Fixpoint merge_all (adapters : seq (string * LoRALinear mx)) (g : rng) :
    seq (string * Module mx) * rng :=
  if adapters is e :: adapters' then
    let m := LoRALinear.merge e.2 g in
    let rest := merge_all adapters' m.2 in
    ((e.1, of_layer m.1) :: rest.1, rest.2)
  else ([::], g).

(** [merge_and_unload_lora] *)
Definition merge_and_unload_lora (self : TrainableLoRA mx) (g : rng) :
    TrainableLoRA mx * rng :=
  let merged :=
    if _lora self is Some _ then
      let merged_modules := merge_all (lora_modules self) g in
      (with_model self (update_modules (model (llm self)) merged_modules.1),
       merged_modules.2)
    else (self, g) in
  let self := mkTrainableLoRA (llm merged.1) None [::] in
  (* Disable training mode *)
  (with_model self (set_train (model (llm self)) false), merged.2).

(** *** evaluate and train *)

(** [loss]: the loss function of the model; the wrapper is only read. *)
Definition loss (self : TrainableLoRA mx) (b : batch) :
    (R * nat) * TrainableLoRA mx :=
  (model_loss (model (llm self)) b, self).

(** [np.sum] of a list *)
Definition np_sum (s : seq R) : R := foldl +%R 0 s.

(** [np.mean] of a list ([nan] for the empty one) *)
Definition np_mean (s : seq R) : option R :=
  if s is [::] then None else Some (np_sum s / (size s)%:R).

(** A float divided by an integer count: dividing by zero gives [nan] or
    an infinity (and a warning), here [None]. *)
Definition np_divide (x : R) (n : nat) : option R :=
  if n == 0%N then None else Some (x / n%:R).

(** The loop of [evaluate] over [zip(range(num_batches), batches)]: the
    range is asked first, then the iterator. *)
Fixpoint evaluate_loop (self : TrainableLoRA mx) (range : nat)
    (batches : seq batch) (all_losses : seq R) (num_tokens : nat) :
    seq R * nat * TrainableLoRA mx :=
  if range is range'.+1 then
    if batches is b :: batches' then
      let r := loss self b in
      let losses := r.1.1 in
      let toks := r.1.2 in
      evaluate_loop r.2 range' batches'
                    (rcons all_losses (losses * toks%:R))
                    (num_tokens + toks)%N
    else (all_losses, num_tokens, self)
  else (all_losses, num_tokens, self).

(** [evaluate]: the average, the wrapper and the dataset afterwards. *)
Definition evaluate (self : TrainableLoRA mx) (dataset : Dataset)
    (batch_size num_batches : nat) :
    option R * TrainableLoRA mx * Dataset :=
  let it := iterate_batches dataset batch_size false in
  let r := evaluate_loop self num_batches it.1 [::] 0 in
  (np_divide (np_sum r.1.1) r.1.2, r.2, it.2).

(** [if msg:] *)
Definition truthy (msg : option string) : bool :=
  if msg is Some s then ~~ String.eqb s EmptyString else false.

(** [a % b] with its exception *)
Definition py_mod (a b : nat) : result nat :=
  if b == 0%N then Raise ZeroDivisionError else Ok (a %% b)%N.

(** [a // b] with its exception *)
Definition py_floordiv (a b : nat) : result nat :=
  if b == 0%N then Raise ZeroDivisionError else Ok (a %/ b)%N.

Definition write (st : train_state ds) (line : report R) : train_state ds :=
  mkTrainState (t_self st) (t_optimizer st) (t_losses st) (t_num_tokens st)
               (t_training st) (t_validation st)
               (rcons (t_written st) line) (updates st).

(** The body of the inner loop of [train], for step [n]. *)
Definition train_step (batch_size report_steps eval_steps : nat)
    (eval_callback : option (nat -> option R -> option string))
    (validation_batches : nat) (n : nat) (st : train_state ds) :
    result unit * train_state ds :=
  (* batch = next(dataset_training.iterate_batches(batch_size, train=True)) *)
  let it := iterate_batches (t_training st) batch_size true in
  let st := mkTrainState (t_self st) (t_optimizer st) (t_losses st)
              (t_num_tokens st) it.2 (t_validation st) (t_written st)
              (updates st) in
  if it.1 is b :: _ then
    (* Forward and backward pass *)
    let vg := loss_value_and_grad (model (llm (t_self st))) b in
    let loss_value := vg.1.1 in
    let toks := vg.1.2 in
    (* Model update *)
    let up := adam_update (t_optimizer st) (model (llm (t_self st))) vg.2 in
    (* Record loss *)
    let st := mkTrainState (with_model (t_self st) up.1) up.2
                (rcons (t_losses st) loss_value) (t_num_tokens st + toks)%N
                (t_training st) (t_validation st) (t_written st)
                (updates st).+1 in
    (* Report training loss if needed *)
    match py_mod n.+1 report_steps with
    | Raise e => (Raise e, st)
    | Ok r =>
        let st :=
          if r == 0%N then
            let train_loss := np_mean (t_losses st) in
            let st := write st (TrainingLoss n.+1 train_loss) in
            mkTrainState (t_self st) (t_optimizer st) [::] 0
                         (t_training st) (t_validation st) (t_written st)
                         (updates st)
          else st in
        (* Report validation loss if needed *)
        let due :=
          if n == 0%N then Ok true
          else do r <- py_mod n.+1 eval_steps; Ok (r == 0%N) in
        match due with
        | Raise e => (Raise e, st)
        | Ok false => (Ok tt, st)
        | Ok true =>
            let ev := evaluate (t_self st) (t_validation st) batch_size
                               validation_batches in
            let val_loss := ev.1.1 in
            let st := mkTrainState ev.1.2 (t_optimizer st) (t_losses st)
                        (t_num_tokens st) (t_training st) ev.2
                        (t_written st) (updates st) in
            let st := write st (ValidationLoss n.+1 val_loss) in
            (* Eval callback *)
            match eval_callback with
            | None => (Raise TypeError, st)
            | Some callback =>
                let msg := callback n.+1 val_loss in
                (Ok tt,
                 if truthy msg
                 then write st (CallbackMessage n.+1 (odflt EmptyString msg))
                 else st)
            end
        end
    end
  else (Raise StopIteration, st).

(** [for iter in range(iterations)], for one epoch. *)
Fixpoint train_epoch (batch_size report_steps eval_steps : nat)
    (eval_callback : option (nat -> option R -> option string))
    (validation_batches : nat) (epoch iterations : nat) (iters : seq nat)
    (st : train_state ds) : result unit * train_state ds :=
  if iters is iter :: iters' then
    let n := (epoch * iterations + iter)%N in
    let r := train_step batch_size report_steps eval_steps eval_callback
                        validation_batches n st in
    match r.1 with
    | Ok _ => train_epoch batch_size report_steps eval_steps eval_callback
                          validation_batches epoch iterations iters' r.2
    | Raise e => (Raise e, r.2)
    end
  else (Ok tt, st).

(** [for epoch in range(epochs)] *)
Fixpoint train_epochs (batch_size report_steps eval_steps : nat)
    (eval_callback : option (nat -> option R -> option string))
    (validation_batches : nat) (iterations : nat) (epochs : seq nat)
    (st : train_state ds) : result unit * train_state ds :=
  if epochs is epoch :: epochs' then
    let r := train_epoch batch_size report_steps eval_steps eval_callback
                         validation_batches epoch iterations
                         (iota 0 iterations) st in
    match r.1 with
    | Ok _ => train_epochs batch_size report_steps eval_steps eval_callback
                           validation_batches iterations epochs' r.2
    | Raise e => (Raise e, r.2)
    end
  else (Ok tt, st).

(** Lines 387-389: the number of iterations of an epoch. *)
Definition train_iterations (iterations : nat) (dataset_training : Dataset)
    (batch_size : nat) : result nat :=
  if iterations == 0%N then py_floordiv (len dataset_training) batch_size
  else Ok iterations.

(** [train]: the outcome, and the state when it returned or raised
    ([None] when it raised before the loop).  Wall-clock measurements and
    the log messages, those of [debug] among them, are left out. *)
Definition train (self : TrainableLoRA mx)
    (dataset_training dataset_validation : Dataset)
    (batch_size : nat) (learning_rate : R)
    (epochs iterations report_steps eval_steps : nat)
    (eval_callback : option (nat -> option R -> option string))
    (validation_samples : nat) (debug : bool) :
    result unit * option (train_state ds) :=
  (* Calculate number of iterations *)
  match train_iterations iterations dataset_training batch_size with
  | Raise e => (Raise e, None)
  | Ok iterations =>
      (* Calculate number of validation batches *)
      match py_floordiv validation_samples batch_size with
      | Raise e => (Raise e, None)
      | Ok validation_batches =>
          let optimizer := adam_init learning_rate in
          let st := mkTrainState self optimizer [::] 0 dataset_training
                                 dataset_validation [::] 0 in
          (* Main training loop *)
          let r := train_epochs batch_size report_steps eval_steps
                     eval_callback validation_batches iterations
                     (iota 0 epochs) st in
          (r.1, Some r.2)
      end
  end.

(** *** from_model and save_checkpoint *)

(** [from_model] *)
Definition from_model (llm : LLM mx) : TrainableLoRA mx :=
  mkTrainableLoRA llm None [::].

(** The decimal digits of [n]: [f"{steps}"] for a step count *)
Definition format_int (n : nat) : string :=
  NilZero.string_of_uint (Nat.to_uint n).

(** [name.rfind(".")] *)
Fixpoint rfind_dot (name : string) : option nat :=
  match name with
  | EmptyString => None
  | String c rest =>
      match rfind_dot rest with
      | Some i => Some i.+1
      | None => if Ascii.eqb c "." then Some 0%N else None
      end
  end.

(** [PurePath.suffix] of a path whose final component is [name]: the part
    from the last dot on, unless that dot starts or ends the name. *)
Definition suffix (name : string) : string :=
  if rfind_dot name is Some i then
    if (0 < i)%N && (i < String.length name - 1)%N
    then substring i (String.length name - i) name
    else EmptyString
  else EmptyString.

(** A file written by [mx.save_safetensors] or by [mx.savez], with the
    state saved in it. *)
Inductive saved_file (state : Type) : Type :=
  | Safetensors of string & state
  | Npz of string & state.

Section Checkpoints.
(** [dict(tree_flatten(model.trainable_parameters()))] *)
Variables (state : Type) (trainable_parameters : Model mx -> state).
(** [str(checkpoint_path / name)], for a [name] without a separator *)
Variable joinpath : string -> string -> string.

(** [save_checkpoint]: what it returns and the files written so far. *)
Definition save_checkpoint (self : TrainableLoRA mx) (checkpoint_path : string)
    (steps : int) (files : seq (saved_file state)) :
    result string * seq (saved_file state) :=
  (* assert self._lora is not None *)
  if _lora self is None then (Raise AssertionError, files)
  else
    let name :=
      if 0 <= steps then
        ("ckpt-" ++ format_int `|steps| ++ ".safetensors")%string
      else "ckpt-final.safetensors"%string in
    let adapter_path := joinpath checkpoint_path name in
    let state := trainable_parameters (model (llm self)) in
    if String.eqb (suffix name) ".safetensors" then
      (Ok adapter_path, rcons files (Safetensors adapter_path state))
    else if String.eqb (suffix name) ".npz" then
      (Ok adapter_path, rcons files (Npz adapter_path state))
    else (Raise ValueError, files).

End Checkpoints.

End Wrapper.
End TrainableLoRA.

(** ** Notions the statements below are phrased with *)

Section Notions.
Context {R : realFieldType} {mx : Runtime R}.

(** The dense weight a layer stands for. *)
Definition dequantized_weight (l : layer mx) : 'M[R]_(out_dims l, in_dims l) :=
  match l with
  | Plain p => data (weight p)
  | Quantized q => mx_dequantize (q_weight q) (group_size q) (bits q)
  end.

(** The weight a merge is meant to produce: the dense weight of the wrapped
    layer plus [scale * (A @ B)^T]. *)
Definition merged_weight (a : LoRALinear mx) :
    'M[R]_(out_dims (linear a), in_dims (linear a)) :=
  dequantized_weight (linear a)
  + scale a *: (data (lora_a a) *m data (lora_b a))^T.

(** The average of [evaluate] as the specification words it, over the
    (loss, token count) pairs of the batches. *)
Definition token_weighted_average (results : seq (R * nat)) : R :=
  (\sum_(r <- results) r.1 * (r.2)%:R) / (\sum_(r <- results) r.2)%:R.

(** A slot with a leaf that the predicate of [quantize] has to look up in
    [excluded]: a plain linear layer whose output width is not 8. *)
Definition selectable (m : Module mx) : bool :=
  match m with
  | MLinear p => output_dims p != 8%N
  | MLoRALinear a =>
      if linear a is Plain p then output_dims p != 8%N else false
  | _ => false
  end.

(** The plain linear leaf of the slot, if any, has its [name] attribute. *)
Definition named (m : Module mx) : bool :=
  match m with
  | MLinear p => isSome (name p)
  | MLoRALinear a => if linear a is Plain p then isSome (name p) else true
  | _ => true
  end.

End Notions.

(** ** A small concrete instance, for the closed examples *)

Module Toy.

(** A runtime over the rationals: the random generator is a counter, a
    draw fills the array with [1 / (fan_in + counter + 1)], dropout is the
    identity and quantization is lossless (the packed weight is the weight). *)
Definition runtime : Runtime rat := {|
  rng := nat;
  random_uniform := fun fan_in m n g =>
    (Array float32 (const_mx ((fan_in + g).+1%:R^-1)), g.+1);
  nn_dropout := fun _ _ m n x g => (x, g);
  random_categorical := fun _ g => (0%N, g);
  qarray := fun m n => array rat m n;
  mx_quantize := fun m n w _ _ => w;
  mx_dequantize := fun m n w _ _ => data w;
  scales_dtype := fun m n w => dtype w
|}.

(** A decoder that always prefers token 1, a batch that is its own
    (loss, token count), an optimizer that leaves the model alone. *)
Definition engine : Engine runtime := {|
  cache := unit;
  forward := fun _ _ _ g => ([:: [:: 0; 1]], tt, g);
  model_layers := fun _ => 0%N;
  batch := rat * nat;
  model_loss := fun _ b => b;
  grads := unit;
  loss_value_and_grad := fun _ b => (b, tt);
  adam := unit;
  adam_init := fun _ => tt;
  adam_update := fun o m _ => (m, o)
|}.

Definition tokenizer : Tokenizer := {|
  encode := fun _ => [:: 1%N];
  decode := fun _ => EmptyString;
  eos_id := 0%N
|}.

(** A dataset: its length and its evaluation batches; the training
    iterator always has a batch. *)
Definition dataset : DatasetOps (rat * nat) := {|
  Dataset := nat * seq (rat * nat);
  len := fun d => d.1;
  iterate_batches := fun d _ train =>
    (if train then [:: (1, 1%N)] else d.2, d)
|}.

(** The same tokenizer with 1 as the end-of-sequence token *)
Definition tokenizer_eos1 : Tokenizer := {|
  encode := fun _ => [:: 1%N];
  decode := fun _ => EmptyString;
  eos_id := 1%N
|}.

Definition scalar (d : Dtype) (c : rat) : array rat 1 1 :=
  Array d (const_mx c).

(** A 1 x 1 linear layer with weight 1, unnamed and named *)
Definition plain1 : Linear rat := mkLinear (scalar float16 1) None None.

Definition wq : Linear rat :=
  mkLinear (scalar float16 1) None (Some "layers.0.attention.wq"%string).

(** The adapter [from_linear] builds around [plain1] from generator state 0 *)
Definition adapter1 : LoRALinear runtime :=
  @mkLoRALinear rat runtime (Plain plain1) 1 (1 / 20%:R) (10 * (16 / 1%:R))
                (scalar float32 (3%:R^-1)) (zeros rat 1 1) None.

(** A quantized 1 x 1 layer with weight 1, and an adapter around it with
    [A = B = 1] and scale 1: the merged weight is 2. *)
Definition quant1 : QuantizedLinear runtime :=
  mkQuantizedLinear 64 4 (scalar float16 1 : @qarray _ runtime 1 1) None None.

Definition adapter_q : LoRALinear runtime :=
  @mkLoRALinear rat runtime (Quantized quant1) 1 0 1
                (scalar float32 1) (scalar float32 1) None.

(** A model whose only linear layer is an 8-wide expert router *)
Definition router : Linear rat :=
  mkLinear (Array float16 (const_mx 1) : array rat 8 1) None
           (Some "layers.0.feed_forward.router"%string).

Definition llm_router : LLM runtime :=
  mkLLM (mkModel [:: ("layers.0.feed_forward.router"%string, MLinear router);
                     ("norm"%string, MOther (Some "norm"%string))]
                 false false) None.

(** A model with one attention projection *)
Definition llm_wq : LLM runtime :=
  mkLLM (mkModel [:: ("layers.0.attention.wq"%string, MLinear wq)]
                 false false) None.

(** An Unadapted and an Adapted wrapper *)
Definition unadapted : TrainableLoRA runtime := mkTrainableLoRA llm_wq None [::].

Definition adapted : TrainableLoRA runtime :=
  mkTrainableLoRA
    (mkLLM (mkModel [:: ("layers.0.attention.wq"%string, MLoRALinear adapter1)]
                    true true) None)
    (Some (mkLoraConfig 0 "query_value" 8))
    [:: "layers.0.attention.wq"%string].

(** 100 and 3 training examples; two validation batches with losses 2 and 3
    over 10 and 20 tokens *)
Definition train100 : @Dataset _ dataset := (100%N, [::]).
Definition train3 : @Dataset _ dataset := (3%N, [::]).
Definition validation : @Dataset _ dataset :=
  (2%N, [:: (2%:R, 10%N); (3%:R, 20%N)]).

Definition no_message : nat -> option rat -> option string := fun _ _ => None.

End Toy.

(** ** Notions for the properties of whole runs *)

(** Keys are compared with [String.eqb]. *)
HB.instance Definition _ := hasDecEq.Build string String.eqb_spec.

Section TreeNotions.
Context {R : realFieldType} {mx : Runtime R}.

(** The keys of a list of slots. *)
Definition keys (slots : seq (string * Module mx)) : seq string :=
  [seq e.1 | e <- slots].

(** [selection slots repl new]: [repl] replaces some of the slots, in their
    order, and [new] is the list with those slots replaced. *)
Inductive selection :
    seq (string * Module mx) -> seq (string * Module mx) ->
    seq (string * Module mx) -> Prop :=
  | selection_nil : selection [::] [::] [::]
  | selection_keep e slots repl new :
      selection slots repl new -> selection (e :: slots) repl (e :: new)
  | selection_swap k m m' slots repl new :
      selection slots repl new ->
      selection ((k, m) :: slots) ((k, m') :: repl) ((k, m') :: new).

(** The [name] attribute of the module in a slot. *)
Definition slot_name (m : Module mx) : option string :=
  match m with
  | MLinear p => name p
  | MQuantizedLinear q => q_name q
  | MLoRALinear a => lora_name a
  | MOther n => n
  end.

(** A plain linear layer the predicate of [quantize] selects, given the
    list [excluded]. *)
Definition chosen (excluded : seq string) (p : Linear R) : bool :=
  (output_dims p != 8%N) &&
  (if name p is Some n then ~~ LLM.mem_string n excluded else false).

(** A slot with a plain linear leaf that [quantize] replaces. *)
Definition picks (excluded : seq string) (m : Module mx) : bool :=
  match m with
  | MLinear p => chosen excluded p
  | MLoRALinear a => if linear a is Plain p then chosen excluded p else false
  | _ => false
  end.

(** What [quantize] puts in the place of a slot, before the renaming. *)
Definition quantized_slot (excluded : seq string) (group_size bits : nat)
    (m : Module mx) : Module mx :=
  if picks excluded m then
    match m with
    | MLinear p =>
        MQuantizedLinear (nn.QuantizedLinear_from_linear p group_size bits)
    | MLoRALinear a => MLoRALinear (LLM.quantize_child a group_size bits)
    | _ => m
    end
  else m.

(** The slots [init_lora] selects for a value of [target_modules]. *)
Definition selector (target_modules : string) :
    option (string * Module mx -> bool) :=
  if String.eqb target_modules "all_linear" then Some TrainableLoRA.is_linear
  else if String.eqb target_modules "query_value" then
    Some (fun e => TrainableLoRA.is_query_value e.1)
  else None.

(** [wrapping select r sc slots wrapped new]: [wrapped] pairs the keys of
    the selected slots, in their order, with adapters of rank [r] and scale
    [sc] that hold the layer of the slot and a zero factor [B]; [new] is
    [slots] with each selected slot holding its adapter. *)
Inductive wrapping (select : string * Module mx -> bool) (r : nat) (sc : R) :
    seq (string * Module mx) -> seq (string * LoRALinear mx) ->
    seq (string * Module mx) -> Prop :=
  | wrapping_nil : wrapping select r sc [::] [::] [::]
  | wrapping_skip e slots wrapped new :
      ~~ select e -> wrapping select r sc slots wrapped new ->
      wrapping select r sc (e :: slots) wrapped (e :: new)
  | wrapping_wrap k m a slots wrapped new :
      select (k, m) -> of_layer (linear a) = m -> data (lora_b a) = 0 ->
      rank a = r -> scale a = sc ->
      wrapping select r sc slots wrapped new ->
      wrapping select r sc ((k, m) :: slots) ((k, a) :: wrapped)
               ((k, MLoRALinear a) :: new).

Definition is_plain (m : Module mx) : bool :=
  if m is MLinear _ then true else false.

(** Adapters as the replacements handed to [update_modules]. *)
Definition as_modules (wrapped : seq (string * LoRALinear mx)) :
    seq (string * Module mx) :=
  [seq (e.1, MLoRALinear e.2) | e <- wrapped].

(** The adapter in the slot [key], with its key. *)
Definition adapter_at (new : seq (string * Module mx)) (key : string) :
    option (string * LoRALinear mx) :=
  if lookup key new is Some (MLoRALinear a) then Some (key, a) else None.

End TreeNotions.

Section GenerateNotions.
Context {R : realFieldType} {mx : Runtime R} {eng : Engine mx}.
Context {tok : Tokenizer}.

(** The first [n] tokens that [generate_step] yields from the state [st]. *)
Fixpoint draws (self : LLM mx) (prompt : seq nat) (temp : R) (n : nat)
    (st : LLM.step_state) (g : rng) : seq nat :=
  if n is n'.+1 then
    let nxt := LLM.generate_step self prompt temp st g in
    nxt.1.1 :: draws self prompt temp n' nxt.1.2 nxt.2
  else [::].

(** The tokens of [s] before its first end-of-sequence token. *)
Definition until_eos (s : seq nat) : seq nat :=
  take (find (pred1 eos_id) s) s.

End GenerateNotions.

Section TrainNotions.
Context {R : realFieldType} {mx : Runtime R} {eng : Engine mx}.
Context {ds : DatasetOps batch}.

(** The step numbers of the validation lines, and of the training-loss
    lines, among the lines written. *)
Definition validated (written : seq (report R)) : seq nat :=
  pmap (fun l => if l is ValidationLoss n _ then Some n else None) written.

Definition reported (written : seq (report R)) : seq nat :=
  pmap (fun l => if l is TrainingLoss n _ then Some n else None) written.

(** The steps numbered [ns], in a row. *)
Definition run_steps (batch_size report_steps eval_steps : nat)
    (validation_batches : nat)
    (eval_callback : option (nat -> option R -> option string))
    (ns : seq nat) (st : train_state ds) : result unit * train_state ds :=
  TrainableLoRA.train_epoch batch_size report_steps eval_steps eval_callback
                            validation_batches 0 0 ns st.

(** Whether the validation of step [n] is due, for an interval that is not
    zero. *)
Definition due (eval_steps n : nat) : bool :=
  (n == 0%N) || (eval_steps %| n.+1)%N.

(** The fields of the wrapper that are its own: the adapter bookkeeping
    and the quantization descriptor. *)
Definition same_bookkeeping (a b : TrainableLoRA mx) : Prop :=
  [/\ _lora a = _lora b, _lora_modules a = _lora_modules b
    & _quantization (llm a) = _quantization (llm b)].

End TrainNotions.

Section GreedyNotions.
Context {R : realFieldType} {mx : Runtime R} {eng : Engine mx}.

(** The forward pass that [generate_step] runs when it is advanced from
    the state [st] (on the prompt at first, on the last token with the
    cache afterwards), and the logits it samples from. *)
Definition step_forward (self : LLM mx) (prompt : seq nat)
    (st : LLM.step_state) (g : rng) : (seq (seq R) * cache) * rng :=
  match st with
  | LLM.NotStarted => forward (model self) prompt None g
  | LLM.Yielded y c => forward (model self) [:: y] (Some c) g
  end.

Definition step_logits (self : LLM mx) (prompt : seq nat)
    (st : LLM.step_state) (g : rng) : seq R :=
  match st with
  | LLM.NotStarted => last [::] (step_forward self prompt st g).1.1
  | LLM.Yielded _ _ => head [::] (step_forward self prompt st g).1.1
  end.

(** The logits and the cache of a forward pass of [m] do not depend on the
    random generator: no dropout is drawn in it (no adapter, evaluation
    mode, or a dropout probability of 0). *)
Definition forward_ignores_rng (m : Model mx) : Prop :=
  forall tokens c g g', (forward m tokens c g).1 = (forward m tokens c g').1.

End GreedyNotions.

(** ** Named layers and a decoder with dropout, for the closed examples *)

Module ToyNamed.

(** The adapter [from_linear] builds around the named projection [Toy.wq]
    from generator state 0 *)
Definition adapter_wq : LoRALinear Toy.runtime :=
  @mkLoRALinear rat Toy.runtime (Plain Toy.wq) 1 (1 / 20%:R)
                (10%:R * (16%:R / 1%:R)) (Toy.scalar float32 (3%:R^-1))
                (zeros rat 1 1) (Some "layers.0.attention.wq"%string).

(** A named quantized 1 x 1 layer with weight 1, and the adapter
    [from_linear] builds around it from generator state 0 *)
Definition quant_wq : QuantizedLinear Toy.runtime :=
  mkQuantizedLinear 64 4 (Toy.scalar float16 1 : @qarray _ Toy.runtime 1 1)
                    None (Some "layers.0.attention.wq"%string).

Definition adapter_quant_wq : LoRALinear Toy.runtime :=
  @mkLoRALinear rat Toy.runtime (Quantized quant_wq) 1 (1 / 20%:R)
                (10%:R * (16%:R / 1%:R)) (Toy.scalar float32 (3%:R^-1))
                (zeros rat 1 1) (Some "layers.0.attention.wq"%string).

(** The input 1, in half precision *)
Definition one16 : array rat 1 1 := Toy.scalar float16 1.

End ToyNamed.

Module ToyDropout.

(** The runtime of [Toy] with a dropout that draws: in training mode and
    for a probability [p] that is not 0, the whole array is kept, scaled by
    [1 / (1 - p)], when the counter is odd and dropped when it is even, and
    the counter advances. *)
Definition runtime : Runtime rat := {|
  rng := nat;
  random_uniform := fun fan_in m n g =>
    (Array float32 (const_mx ((fan_in + g).+1%:R^-1)), g.+1);
  nn_dropout := fun p training m n x g =>
    if training && (p != 0) then
      (Array (dtype x) (if odd g then (1 - p)^-1 *: data x else 0), g.+1)
    else (x, g);
  random_categorical := fun _ g => (0%N, g);
  qarray := fun m n => array rat m n;
  mx_quantize := fun m n w _ _ => w;
  mx_dequantize := fun m n w _ _ => data w;
  scales_dtype := fun m n w => dtype w
|}.

(** The first entry of a row *)
Definition entry n (x : array rat 1 n) : rat :=
  match n return array rat 1 n -> rat with
  | 0 => fun _ => 0
  | n'.+1 => fun x => data x ord0 ord0
  end x.

(** A decoder with one projection: it feeds the input 1 to the adapter
    in the slot of the query projection, in the mode of the model, and
    prefers token 1 to token 0 when the output exceeds 2. *)
Definition decoder (m : Model runtime) (tokens : seq nat) (c : option unit)
    (g : nat) : (seq (seq rat) * unit) * nat :=
  if lookup "layers.0.attention.wq" (named_modules m) is Some (MLoRALinear a)
  then
    let out := LoRALinear.call a (training m)
                 (Array float16 (const_mx 1) : array rat 1 _) g in
    ([:: [:: 2%:R; entry out.1]], tt, out.2)
  else ([:: [:: 0; 1]], tt, g).

Definition engine : Engine runtime := {|
  cache := unit;
  forward := decoder;
  model_layers := fun _ => 1%N;
  batch := rat * nat;
  model_loss := fun _ b => b;
  grads := unit;
  loss_value_and_grad := fun _ b => (b, tt);
  adam := unit;
  adam_init := fun _ => tt;
  adam_update := fun o m _ => (m, o)
|}.

(** A trained adapter around the projection of weight 1: [A = B = 1],
    scale 1, dropout probability 1/2 *)
Definition adapter : LoRALinear runtime :=
  @mkLoRALinear rat runtime (Plain Toy.wq) 1 (1 / 2%:R) 1
                (Toy.scalar float32 1) (Toy.scalar float32 1)
                (Some "layers.0.attention.wq"%string).

(** The model [init_lora] and some training leave: adapted, frozen, in
    training mode; and the same model in evaluation mode *)
Definition llm_training : LLM runtime :=
  mkLLM (mkModel [:: ("layers.0.attention.wq"%string, MLoRALinear adapter)]
                 true true) None.

Definition llm_eval : LLM runtime :=
  mkLLM (mkModel [:: ("layers.0.attention.wq"%string, MLoRALinear adapter)]
                 true false) None.

End ToyDropout.

(** * Properties *)

(** ** The adapter layer *)

Section LoRAFacts.
Context {R : realFieldType} {mx : Runtime R}.

(** A wrap that succeeds holds the given layer and a zero [B]. *)
Lemma from_linear_ok (l : layer mx) rank alpha dropout scale g a g' :
  LoRALinear.from_linear l rank alpha dropout scale g = (Ok a, g') ->
  linear a = l /\ data (lora_b a) = 0.
Proof.
rewrite /LoRALinear.from_linear /LoRALinear.init_lora_weights.
case: ifP => _ //=; case: ifP => _ //=.
by case=> <- _.
Qed.

(** The wrap succeeds for a dropout probability in [0, 1) and a rank that
    is not zero, and this is the adapter it returns. *)
Lemma from_linear_success (l : layer mx) rank alpha dropout scale g :
  0 <= dropout < 1 -> rank != 0%N ->
  let g1 := (nn.Linear_init (in_dims l) (out_dims l) (has_bias l) g).2 in
  let a := random_uniform (in_dims l) (in_dims l) rank g1 in
  LoRALinear.from_linear l rank alpha dropout scale g =
  (Ok (@mkLoRALinear R mx l rank dropout (scale * (alpha / rank%:R)) a.1
                     (zeros R rank (out_dims l)) (layer_name l)), a.2).
Proof.
move=> /andP [d0 d1] /negbTE r0.
rewrite /LoRALinear.from_linear /LoRALinear.init_lora_weights r0.
by rewrite ltNge d0 leNgt d1.
Qed.

Lemma astype_same m n (x : array R m n) d : dtype x = d -> astype d x = x.
Proof. by case: x => dx M /= ->. Qed.

Lemma promote_float32 d : promote d float32 = float32.
Proof. by case: d. Qed.

(** A wrap that succeeds holds a factor [B] made by [mx.zeros]: float32. *)
Lemma from_linear_b_dtype (l : layer mx) rank alpha dropout scale g a g' :
  LoRALinear.from_linear l rank alpha dropout scale g = (Ok a, g') ->
  dtype (lora_b a) = float32.
Proof.
rewrite /LoRALinear.from_linear /LoRALinear.init_lora_weights.
case: ifP => _ //=; case: ifP => _ //=.
by case=> <- _.
Qed.

(** With a float32 factor [B] the adapter returns a float32 array. *)
Lemma call_dtype (a : LoRALinear mx) training b
    (x : array R b (in_dims (linear a))) g :
  dtype (lora_b a) = float32 ->
  dtype (LoRALinear.call a training x g).1 = float32.
Proof. by move=> b32; rewrite /LoRALinear.call /= b32 !promote_float32. Qed.

(** With a zero factor [B], on an input that already has the dtype the
    adapter casts it to, the adapter returns the entries the wrapped layer
    returns on that input. *)
Lemma call_zero_b_same_dtype (a : LoRALinear mx) training b
    (x : array R b (in_dims (linear a))) g :
  data (lora_b a) = 0 ->
  dtype x = match linear a with
            | Plain p => dtype (weight p)
            | Quantized q => scales_dtype (q_weight q)
            end ->
  data (LoRALinear.call a training x g).1 = data (layer_call (linear a) x).
Proof.
by move=> b0 dx; rewrite /LoRALinear.call /= b0 mulmx0 scaler0 addr0
                         astype_same.
Qed.

(** C2, as it holds.  An adapter freshly wrapped around a plain linear
    layer holds that layer.  On every input that has the dtype of the
    layer's weight (so that the cast [x.astype(dtype)] does nothing), in
    either mode and whatever the dropout mask, its forward evaluation
    returns the entries the layer itself returns, in exact arithmetic; the
    array it returns is float32, whatever the dtype of the layer. *)
Theorem fresh_adapter_is_noop (l : Linear R) rank alpha dropout scale g a g' :
  LoRALinear.from_linear (Plain l) rank alpha dropout scale g = (Ok a, g') ->
  linear a = Plain l /\
  forall training b (x : array R b (in_dims (linear a))) g2,
    dtype x = dtype (weight l) ->
    data (LoRALinear.call a training x g2).1 = data (layer_call (linear a) x)
    /\ dtype (LoRALinear.call a training x g2).1 = float32.
Proof.
move=> wrapped; have [wraps b0] := from_linear_ok wrapped.
have b32 := from_linear_b_dtype wrapped.
split=> // training b x g2 dx; split; last exact: call_dtype.
by apply: call_zero_b_same_dtype => //; rewrite dx wraps.
Qed.

(** C3. Merging an adapter around a plain linear layer returns that layer
    with its weight replaced by [weight + scale * (A @ B)^T], in the dtype
    the weight had; the bias and the name are the ones of the layer, and
    the random generator is not touched. *)
Theorem merge_plain_adds_correction (l : Linear R) rank p s
    (A : array R (input_dims l) rank) (B : array R rank (output_dims l))
    nm g :
  let a := @mkLoRALinear R mx (Plain l) rank p s A B nm in
  LoRALinear.merge a g =
  (Plain (mkLinear (Array (dtype (weight l))
                          (data (weight l) + s *: (data A *m data B)^T))
                   (bias l) (name l)), g) /\
  dequantized_weight (LoRALinear.merge a g).1 = merged_weight a.
Proof. by []. Qed.

(** The merged plain layer computes what the adapter computes when dropout
    lets the input through. *)
Lemma merge_plain_forward (l : Linear R) rank p s
    (A : array R (input_dims l) rank) (B : array R rank (output_dims l))
    nm g training b (x : array R b (input_dims l)) g2 :
  let a := @mkLoRALinear R mx (Plain l) rank p s A B nm in
  (nn_dropout p training x g2).1 = x ->
  data (layer_call (LoRALinear.merge a g).1 x)
  = data (LoRALinear.call a training x g2).1.
Proof.
move=> a keep; rewrite /LoRALinear.call keep /= /nn.Linear_call /=.
have merged : data x *m (data (weight l) + s *: (data A *m data B)^T)^T
              = data x *m (data (weight l))^T
                + s *: (data x *m data A *m data B).
  by rewrite linearD /= linearZ /= trmxK mulmxDr -scalemxAr mulmxA.
by case: (bias l) => [bv|] /=; rewrite merged // addrAC.
Qed.

(** What [merge] returns for a quantized layer: the quantization of a
    freshly initialised linear layer.  Neither the packed weight nor the
    factors nor the scale occur in it. *)
Lemma merge_quantized_fresh (q : QuantizedLinear mx) rank p s
    (A : array R (q_input_dims q) rank) (B : array R rank (q_output_dims q))
    nm g :
  LoRALinear.merge (@mkLoRALinear R mx (Quantized q) rank p s A B nm) g =
  let fresh := nn.Linear_init (q_input_dims q) (q_output_dims q)
                              (isSome (q_bias q)) g in
  (Quantized (nn.QuantizedLinear_from_linear fresh.1 (group_size q) (bits q)),
   fresh.2).
Proof. by []. Qed.

End LoRAFacts.

Lemma scalar_neq (c d : rat) :
  c != d -> (const_mx c : 'M[rat]_(1, 1)) <> const_mx d.
Proof.
move=> /negP ne /matrixP /(_ ord0 ord0); rewrite !mxE => e; apply: ne.
by rewrite e.
Qed.

Lemma merged_weight_adapter_q :
  merged_weight Toy.adapter_q = const_mx 2%:R.
Proof.
apply/matrixP=> i j; rewrite /merged_weight /= !mxE big_ord1 !mxE.
by rewrite !mul1r.
Qed.

(** C1. On a quantized layer of weight 1 with [A = B = 1] and scale 1, under
    a lossless quantizer, the merged weight is 2, and the layer [merge]
    returns stands for the weight 1/2 that the fresh [nn.Linear] drew. *)
Theorem merge_quantized_drops_merged_weight :
  let merged := (LoRALinear.merge Toy.adapter_q 0%N).1 in
  [/\ merged_weight Toy.adapter_q = const_mx 2%:R,
      dequantized_weight merged = const_mx (2%:R^-1) &
      dequantized_weight merged <> merged_weight Toy.adapter_q].
Proof.
split; [exact: merged_weight_adapter_q | by [] |].
rewrite merged_weight_adapter_q; apply: scalar_neq.
by vm_compute.
Qed.

(** C2, as it holds, at the named 1 x 1 projection of weight 1 in half
    precision, with the default hyperparameters and the input 1. *)
Lemma fresh_adapter_is_noop_witness :
  LoRALinear.from_linear (mx := Toy.runtime) (Plain Toy.wq) 1 16%:R
                         (1 / 20%:R) 10%:R 0%N
  = (Ok ToyNamed.adapter_wq, 2%N) /\
  (linear ToyNamed.adapter_wq = Plain Toy.wq /\
   (data (LoRALinear.call ToyNamed.adapter_wq true ToyNamed.one16 0%N).1
    = data (layer_call (linear ToyNamed.adapter_wq) ToyNamed.one16) /\
    dtype (LoRALinear.call ToyNamed.adapter_wq true ToyNamed.one16 0%N).1
    = float32)).
Proof.
have wrapped : LoRALinear.from_linear (mx := Toy.runtime) (Plain Toy.wq)
                 1 16%:R (1 / 20%:R) 10%:R 0%N
               = (Ok ToyNamed.adapter_wq, 2%N).
  by rewrite from_linear_success; [reflexivity | vm_compute | ].
have [wraps noop] := fresh_adapter_is_noop wrapped.
split; first exact: wrapped.
split; first exact: wraps.
exact: (noop true 1%N ToyNamed.one16 0%N (erefl _)).
Defined.

(** C2, as stated, fails: around the half-precision projection the fresh
    adapter returns a float32 array where the layer returns a float16 one,
    so what it returns is not what the layer returns, on an input that is
    itself in half precision. *)
Lemma fresh_adapter_changes_dtype :
  [/\ LoRALinear.from_linear (mx := Toy.runtime) (Plain Toy.wq) 1 16%:R
                              (1 / 20%:R) 10%:R 0%N
       = (Ok ToyNamed.adapter_wq, 2%N),
       dtype (layer_call (linear ToyNamed.adapter_wq) ToyNamed.one16)
       = float16,
       dtype (LoRALinear.call ToyNamed.adapter_wq false ToyNamed.one16 0%N).1
       = float32
     & (LoRALinear.call ToyNamed.adapter_wq false ToyNamed.one16 0%N).1
       <> layer_call (linear ToyNamed.adapter_wq) ToyNamed.one16].
Proof.
by split.
Qed.

(** ** The generation loop *)

Section GenerateFacts.
Context {R : realFieldType} {mx : Runtime R} {eng : Engine mx}.
Context {tok : Tokenizer}.
Variable self : LLM mx.

Lemma sample_greedy (logits : seq R) g :
  LLM.sample 0 logits g = (LLM.argmax logits, g).
Proof. by rewrite /LLM.sample eqxx. Qed.

(** At temperature zero a step of the inner generator yields the argmax
    of the logits of its forward pass, and leaves the random generator as
    the forward pass left it: sampling does not draw. *)
Lemma generate_step_argmax prompt st g :
  LLM.generate_step self prompt 0 st g
  = (LLM.argmax (step_logits self prompt st g),
     LLM.Yielded (LLM.argmax (step_logits self prompt st g))
                 (step_forward self prompt st g).1.2,
     (step_forward self prompt st g).2).
Proof. by case: st => [|y c]; rewrite /LLM.generate_step sample_greedy. Qed.

(** When the forward pass does not depend on the random generator, neither
    do the token and the state of a step at temperature zero. *)
Lemma generate_step_greedy prompt st g g' :
  forward_ignores_rng (model self) ->
  (LLM.generate_step self prompt 0 st g).1
  = (LLM.generate_step self prompt 0 st g').1.
Proof.
move=> det; rewrite !generate_step_argmax /step_logits /=.
by case: st => [|y c] /=; rewrite (det _ _ g g').
Qed.

Lemma generate_loop_greedy prompt flush range st g g' tokens num_tokens steps :
  forward_ignores_rng (model self) ->
  LLM.generate_loop self prompt 0 flush range st g tokens num_tokens steps =
  LLM.generate_loop self prompt 0 flush range st g' tokens num_tokens steps.
Proof.
move=> det.
elim: range st g g' tokens num_tokens steps
  => [|range IH] st g g' tokens nt steps //=.
rewrite (generate_step_greedy prompt st g g' det).
case: ifP => // _; case: ifP => // _; case: ifP => _; last exact: IH.
by rewrite (IH _ (LLM.generate_step self prompt 0 st g).2
               (LLM.generate_step self prompt 0 st g').2).
Qed.

(** The inner generator is advanced at least once and at most once more
    than the range allows. *)
Lemma generate_loop_steps prompt temp flush range st g tokens nt steps :
  (steps < sampling_steps (LLM.generate_loop self prompt temp flush range
                                             st g tokens nt steps)
         <= steps + range.+1)%N.
Proof.
elim: range st g tokens nt steps => [|range IH] st g tokens nt steps /=.
  by rewrite ltnSn addn1 leqnn.
case: ifP => _ /=; first by rewrite ltnSn -addn1 leq_add2l.
case: ifP => _ /=; first by rewrite ltnSn -addn1 leq_add2l.
set nxt := LLM.generate_step self prompt temp st g.
case: ifP => _ /=.
- have /andP [lo hi] :=
    IH nxt.1.2 nxt.2 [::] (nt + size (rcons tokens nxt.1.1))%N steps.+1.
  by rewrite (ltn_trans (ltnSn _) lo) /= (leq_trans hi) // addSnnS.
- have /andP [lo hi] := IH nxt.1.2 nxt.2 (rcons tokens nxt.1.1) nt steps.+1.
  by rewrite (ltn_trans (ltnSn _) lo) /= (leq_trans hi) // addSnnS.
Qed.

Lemma emitted_finish tokens nt steps :
  LLM.emitted (LLM.finish tokens nt steps) = tokens.
Proof. by rewrite /LLM.emitted /= cats0. Qed.

Lemma emitted_yield c r : LLM.emitted (yield c r) = c.1 ++ LLM.emitted r.
Proof. by []. Qed.

(** No more tokens are emitted than are pending plus what the range allows. *)
Lemma generate_loop_emitted prompt temp flush range st g tokens nt steps :
  (size (LLM.emitted (LLM.generate_loop self prompt temp flush range st g
                                        tokens nt steps))
   <= size tokens + range)%N.
Proof.
elim: range st g tokens nt steps => [|range IH] st g tokens nt steps /=.
  by rewrite emitted_finish addn0.
case: ifP => _; first by rewrite emitted_finish leq_addr.
case: ifP => _ //; case: ifP => _.
- rewrite emitted_yield size_cat /= size_rcons addSnnS leq_add2l.
  exact: (leq_trans (IH _ _ _ _ _)).
- by rewrite (leq_trans (IH _ _ _ _ _)) // size_rcons addSnnS.
Qed.

(** The end-of-sequence token is never among the emitted tokens. *)
Lemma generate_loop_no_eos prompt temp flush range st g tokens nt steps :
  eos_id \notin tokens ->
  eos_id \notin LLM.emitted (LLM.generate_loop self prompt temp flush range
                                               st g tokens nt steps).
Proof.
elim: range st g tokens nt steps => [|range IH] st g tokens nt steps /= clean.
  by rewrite emitted_finish.
case: ifP => [_|/negbT ne]; first by rewrite emitted_finish.
have clean' : eos_id \notin
    rcons tokens (LLM.generate_step self prompt temp st g).1.1.
  by rewrite mem_rcons inE negb_or eq_sym ne.
case: ifP => _ //; case: ifP => _; last exact: IH.
by rewrite emitted_yield mem_cat negb_or clean' /=; exact: IH.
Qed.

(** Only a zero flush interval makes the loop raise. *)
Lemma generate_loop_raised prompt temp flush range st g tokens nt steps :
  flush != 0%N ->
  raised (LLM.generate_loop self prompt temp flush range st g tokens nt steps)
  = None.
Proof.
move=> /negbTE fl.
elim: range st g tokens nt steps => [|range IH] st g tokens nt steps //=.
by rewrite fl; case: ifP => // _; case: ifP => _ /=; rewrite IH.
Qed.

(** A run that emits as many tokens as the range allows has drawn one
    token more. *)
Lemma generate_loop_full prompt temp flush range st g tokens nt steps :
  size (LLM.emitted (LLM.generate_loop self prompt temp flush range st g
                                       tokens nt steps))
  = (size tokens + range)%N ->
  sampling_steps (LLM.generate_loop self prompt temp flush range st g
                                    tokens nt steps)
  = (steps + range.+1)%N.
Proof.
elim: range st g tokens nt steps => [|range IH] st g tokens nt steps /=.
  by rewrite addn1.
case: ifP => _.
  by rewrite emitted_finish => /eqP; rewrite -[X in X == _]addn0 eqn_add2l.
case: ifP => _; first by rewrite addnS.
case: ifP => _.
- rewrite emitted_yield size_cat /= size_rcons addSnnS => /eqP.
  by rewrite eqn_add2l eqSS => /eqP full; rewrite (IH _ _ [::] _ _ full) addSnnS.
- by move=> full; rewrite IH ?addSnnS // full size_rcons addSnnS.
Qed.

(** What holds of every drained [generate]: the inner generator is advanced
    at most [num_tokens + 1] times, at most [num_tokens] tokens are emitted
    over all chunks, the end-of-sequence token is not one of them, and the
    run ends without an exception unless the flush interval is zero. *)
Lemma generate_bounds (prompt : string) temp num_tokens flush g :
  let r := LLM.generate_tokens self prompt temp num_tokens flush g in
  [/\ (sampling_steps r <= num_tokens.+1)%N,
      (size (LLM.emitted r) <= num_tokens)%N,
      eos_id \notin LLM.emitted r &
      flush != 0%N -> raised r = None].
Proof.
rewrite /LLM.generate_tokens /=; split; last exact: generate_loop_raised.
- have /andP [_ hi] := generate_loop_steps (@encode tok prompt) temp
                          flush num_tokens LLM.NotStarted g [::] 0 0.
  by rewrite add0n in hi.
- exact: (generate_loop_emitted _ _ _ _ _ _ _ _ _).
- exact: generate_loop_no_eos.
Qed.

(** Whenever [generate] emits all of its [num_tokens] tokens, it has
    sampled [num_tokens + 1]. *)
Lemma generate_full_budget_oversamples (prompt : string) temp num_tokens
    flush g :
  let r := LLM.generate_tokens self prompt temp num_tokens flush g in
  size (LLM.emitted r) = num_tokens -> sampling_steps r = num_tokens.+1.
Proof.
by move=> r full; rewrite /r /LLM.generate_tokens generate_loop_full ?add0n.
Qed.

(** C4. With [num_tokens = 0] the loop still draws one token from
    [generate_step] (one forward pass and one sample) before the empty
    range ends it; the token is dropped and one empty chunk is yielded. *)
Theorem generate_zero_budget_samples_once (prompt : string) temp flush g :
  let r := LLM.generate_tokens self prompt temp 0 flush g in
  sampling_steps r = 1%N /\ yields r = [:: ([::], 0%N)].
Proof. by []. Qed.

(** With a flush interval that is not zero the loop emits its pending
    tokens and then the tokens it draws, up to the first end-of-sequence
    token. *)
Lemma generate_loop_emits prompt temp flush range st g tokens nt steps :
  flush != 0%N ->
  LLM.emitted (LLM.generate_loop self prompt temp flush range st g tokens
                                 nt steps)
  = tokens ++ until_eos (draws self prompt temp range st g).
Proof.
move=> /negbTE fl.
elim: range st g tokens nt steps => [|range IH] st g tokens nt steps /=.
  by rewrite emitted_finish /until_eos /= cats0.
rewrite /until_eos /=; case: ifP => [_|ne].
  by rewrite emitted_finish take0 cats0.
rewrite fl; case: ifP => _.
- by rewrite emitted_yield IH /= cat_rcons.
- by rewrite IH cat_rcons.
Qed.

(** C5, as it holds.  At temperature zero every sample is the argmax of
    the logits and does not draw from the random generator; every token
    [generate_step] yields is the argmax of the logits of its forward pass;
    and (for a flush interval that is not zero) the tokens emitted are
    these tokens, up to the first end-of-sequence token.  When the forward
    pass of the model does not depend on the random generator, what
    [generate] yields is the same whatever the state of the generator: it
    is a function of the prompt and the model only. *)
Theorem generate_greedy_deterministic (prompt : string) num_tokens flush g1 g2 :
  forward_ignores_rng (model self) ->
  [/\ forall logits g, LLM.sample 0 logits g = (LLM.argmax logits, g),
      forall st g,
        (LLM.generate_step self (encode prompt) 0 st g).1.1
        = LLM.argmax (step_logits self (encode prompt) st g),
      flush != 0%N ->
      LLM.emitted (LLM.generate_tokens self prompt 0 num_tokens flush g1)
      = until_eos (draws self (encode prompt) 0 num_tokens LLM.NotStarted g1),
      LLM.generate_tokens self prompt 0 num_tokens flush g1
      = LLM.generate_tokens self prompt 0 num_tokens flush g2 &
      LLM.generate self prompt 0 num_tokens flush g1
      = LLM.generate self prompt 0 num_tokens flush g2].
Proof.
move=> det.
have same : LLM.generate_tokens self prompt 0 num_tokens flush g1
            = LLM.generate_tokens self prompt 0 num_tokens flush g2.
  exact: generate_loop_greedy.
split; [exact: sample_greedy | | | exact: same | by rewrite /LLM.generate same].
- by move=> st g; rewrite generate_step_argmax.
- by move=> fl; rewrite /LLM.generate_tokens generate_loop_emits.
Qed.

End GenerateFacts.

(** C5, as it holds, on the decoder that always prefers token 1, whose
    forward pass does not touch the random generator. *)
Lemma generate_greedy_deterministic_witness :
  LLM.generate_tokens (eng := Toy.engine) (tok := Toy.tokenizer)
                      Toy.llm_wq "hello" 0 3 2 0%N
  = LLM.generate_tokens (eng := Toy.engine) (tok := Toy.tokenizer)
                        Toy.llm_wq "hello" 0 3 2 7%N.
Proof.
have [_ _ _ same _] :=
  @generate_greedy_deterministic _ _ Toy.engine Toy.tokenizer Toy.llm_wq
    "hello" 3 2 0%N 7%N (fun tokens c g g' => erefl _).
exact: same.
Defined.

(** The forward pass of the decoder with dropout, on the adapted model in
    training mode: the adapter returns [1 + 2] when the mask keeps its
    input and [1 + 0] when the mask drops it. *)
Lemma forward_training tokens c g :
  forward (Engine := ToyDropout.engine) (model ToyDropout.llm_training)
          tokens c g
  = ([:: [:: 2%:R; if odd g then 3%:R else 1]], tt, g.+1).
Proof.
rewrite /forward /= /ToyDropout.decoder /= /LoRALinear.call /=.
congr (_, _, _); congr [:: [:: _; _]].
by case: (odd g); rewrite !mxE !big_ord1 !mxE ?big_ord1 ?mxE;
   apply/eqP; vm_compute.
Qed.

Lemma step_training prompt st g :
  step_forward (eng := ToyDropout.engine) ToyDropout.llm_training prompt st g
  = ([:: [:: 2%:R; if odd g then 3%:R else 1]], tt, g.+1) /\
  step_logits (eng := ToyDropout.engine) ToyDropout.llm_training prompt st g
  = [:: 2%:R; if odd g then 3%:R else 1].
Proof.
by case: st => [|y c]; rewrite /step_logits /step_forward forward_training.
Qed.

(** The same adapted model in evaluation mode: dropout lets the input
    through, and the forward pass does not depend on the random
    generator. *)
Lemma forward_eval_ignores_rng :
  forward_ignores_rng (eng := ToyDropout.engine) (model ToyDropout.llm_eval).
Proof. by move=> tokens c g g'. Qed.

(** C5, as stated, fails on an adapted model in training mode, the state
    [init_lora] leaves: every forward pass draws a dropout mask, and two
    greedy runs on the same prompt and the same model emit different
    tokens, here none (the first token is the end-of-sequence token 0)
    from generator state 0 and the token 1 from generator state 1. *)
Lemma generate_greedy_depends_on_dropout :
  [/\ training (model ToyDropout.llm_training),
       LLM.emitted (LLM.generate_tokens (eng := ToyDropout.engine)
                      (tok := Toy.tokenizer) ToyDropout.llm_training
                      "hello" 0 1 5 0%N) = [::]
     & LLM.emitted (LLM.generate_tokens (eng := ToyDropout.engine)
                      (tok := Toy.tokenizer) ToyDropout.llm_training
                      "hello" 0 1 5 1%N) = [:: 1%N]].
Proof.
have low : LLM.argmax [:: 2%:R; 1 : rat] = 0%N by vm_compute.
have high : LLM.argmax [:: 2%:R; 3%:R : rat] = 1%N by vm_compute.
split=> //.
- rewrite /LLM.generate_tokens /LLM.generate_loop generate_step_argmax.
  by have [-> ->] := step_training (@encode Toy.tokenizer "hello")
                       LLM.NotStarted 0%N; rewrite low.
- rewrite /LLM.generate_tokens /LLM.generate_loop !generate_step_argmax.
  have [-> ->] := step_training (@encode Toy.tokenizer "hello")
                    LLM.NotStarted 1%N.
  by rewrite high.
Qed.

(** Five tokens flushed every two: chunks of 2, 2 and 1 tokens with the
    running total of [stats]; the last chunk is empty when the budget is a
    multiple of the flush interval; and a first token that is the
    end-of-sequence token ends the run with one empty chunk. *)
Example generate_flush_example :
  let run num_tokens :=
    LLM.generate_tokens (eng := Toy.engine) (tok := Toy.tokenizer)
                        Toy.llm_wq EmptyString 0 num_tokens 2 0%N in
  [/\ yields (run 5%N) = [:: ([:: 1; 1], 2); ([:: 1; 1], 4); ([:: 1], 5)]%N,
      yields (run 4%N) = [:: ([:: 1; 1], 2); ([:: 1; 1], 4); ([::], 4)]%N &
      yields (LLM.generate_tokens (eng := Toy.engine)
                (tok := Toy.tokenizer_eos1) Toy.llm_wq EmptyString 0 5 2 0%N)
      = [:: ([::], 0%N)]].
Proof. by vm_compute. Qed.

(** A run that never meets the end-of-sequence token: with
    [num_tokens = 2] two tokens are emitted and three are sampled. *)
Lemma generate_two_tokens_three_steps :
  let r := LLM.generate_tokens (eng := Toy.engine) (tok := Toy.tokenizer)
             Toy.llm_wq EmptyString 0 2 5 0%N in
  sampling_steps r = 3%N /\ yields r = [:: ([:: 1%N; 1%N], 2%N)].
Proof. by vm_compute. Qed.

(** ** quantize *)

Section QuantizeFacts.
Context {R : realFieldType} {mx : Runtime R}.

Lemma predicate_unselectable excluded (m : Module mx) gs bits :
  ~~ selectable m ->
  LLM._quantize_if_linear (LLM.linear_class_predicate excluded) gs bits m
  = Ok m.
Proof.
case: m => [p|q|a|o] //= uns.
- by rewrite (negbTE uns).
- case: (linear a) uns => [p|q] //= uns.
  by rewrite (negbTE uns).
Qed.

Lemma predicate_raises (m : Module mx) gs bits :
  selectable m ->
  is_ok (LLM._quantize_if_linear (LLM.linear_class_predicate None) gs bits m)
  = false.
Proof.
case: m => [p|q|a|o] //=.
- by move=> ->; case: (name p).
- by case: (linear a) => [p|q] //= ->; case: (name p).
Qed.

Lemma predicate_list (m : Module mx) ex gs bits :
  named m ->
  is_ok (LLM._quantize_if_linear (LLM.linear_class_predicate (Some ex))
                                 gs bits m).
Proof.
case: m => [p|q|a|o] //=.
- by case: ifP => _ //; case: (name p) => //= n _; case: ifP.
- case: (linear a) => [p|q] //=.
  by case: ifP => _ //; case: (name p) => //= n _; case: ifP.
Qed.

Lemma tree_map_raises (f : Module mx -> result (Module mx)) leaves :
  has (fun e => ~~ is_ok (f e.2)) leaves ->
  is_ok (LLM.tree_map f leaves) = false.
Proof.
elim: leaves => [|e leaves IH] //= /orP [bad|/IH].
  by case: (f e.2) bad.
by case: (f e.2) => //= m; case: (LLM.tree_map f leaves).
Qed.

Lemma tree_map_ok (f : Module mx -> result (Module mx)) leaves :
  all (fun e => is_ok (f e.2)) leaves -> is_ok (LLM.tree_map f leaves).
Proof.
elim: leaves => [|e leaves IH] //= /andP [ok /IH].
by case: (f e.2) ok => //= m _; case: (LLM.tree_map f leaves).
Qed.

Lemma tree_map_unselectable excluded gs bits
    (leaves : seq (string * Module mx)) :
  ~~ has (fun e => selectable e.2) leaves ->
  LLM.tree_map (LLM._quantize_if_linear (LLM.linear_class_predicate excluded)
                                        gs bits) leaves = Ok leaves.
Proof.
elim: leaves => [|[k m] leaves IH] //=; rewrite negb_or => /andP [uns /IH ->].
by rewrite predicate_unselectable.
Qed.

(** Without a leaf to look up, [excluded] is never read: [quantize]
    returns normally whatever it is. *)
Lemma quantize_nothing_selectable (self : LLM mx) gs bits excluded :
  ~~ has (fun e => selectable e.2) (named_modules (model self)) ->
  (LLM.quantize self gs bits excluded).1 = Ok tt.
Proof.
move=> uns; rewrite /LLM.quantize; case: (_quantization self) => //.
by rewrite /LLM.quantize_module /= tree_map_unselectable.
Qed.

(** With every leaf named, the first leaf that makes the predicate look
    into a missing [excluded] raises [TypeError]. *)
Lemma tree_map_type_error gs bits (leaves : seq (string * Module mx)) :
  all (fun e => named e.2) leaves ->
  has (fun e => selectable e.2) leaves ->
  LLM.tree_map (LLM._quantize_if_linear (LLM.linear_class_predicate None)
                                        gs bits) leaves = Raise TypeError.
Proof.
elim: leaves => [|[k m] leaves IH] //= /andP [nm nms].
have rest := IH nms.
case sel: (selectable m) => /=; last first.
  by move/rest->; rewrite predicate_unselectable ?sel.
move=> _.
case: m nm sel => [p|q|a|o] //=.
- by case: (name p) => //= n _ ->.
- by case: (linear a) => [p|q] //=; case: (name p) => //= n _ ->.
Qed.

(** C9, as it holds.  On a model that is not quantized yet: when some leaf
    is a plain linear layer whose output width is not 8, [quantize] with
    [excluded] left at [None] raises (a [TypeError] when the leaves are
    named), the module tree is the one it was and the quantization
    descriptor is already set; with a list for [excluded] and named leaves
    it returns normally; and when no leaf is such a layer it returns
    normally whatever [excluded] is. *)
Theorem quantize_without_excluded_raises (self : LLM mx) gs bits :
  _quantization self = None ->
  let slots := named_modules (model self) in
  let unchanged := mkLLM (model self) (Some (gs, bits)) in
  [/\ has (fun e => selectable e.2) slots ->
      exists e, LLM.quantize self gs bits None = (Raise e, unchanged),
      has (fun e => selectable e.2) slots ->
      all (fun e => named e.2) slots ->
      LLM.quantize self gs bits None = (Raise TypeError, unchanged),
      all (fun e => named e.2) slots ->
      forall ex, (LLM.quantize self gs bits (Some ex)).1 = Ok tt &
      ~~ has (fun e => selectable e.2) slots ->
      forall excluded, (LLM.quantize self gs bits excluded).1 = Ok tt].
Proof.
move=> fresh slots unchanged; split.
- move=> sel; rewrite /LLM.quantize fresh /LLM.quantize_module /=.
  have: is_ok (LLM.tree_map
                 (LLM._quantize_if_linear (LLM.linear_class_predicate None)
                                          gs bits) slots) = false.
    apply: tree_map_raises; apply: sub_has sel => e sel.
    by rewrite predicate_raises.
  by rewrite -/slots; case: (LLM.tree_map _ _) => //= e _; exists e.
- move=> sel nm; rewrite /LLM.quantize fresh /LLM.quantize_module /=.
  by rewrite -/slots tree_map_type_error.
- move=> nm ex; rewrite /LLM.quantize fresh /LLM.quantize_module /=.
  have: is_ok (LLM.tree_map
                 (LLM._quantize_if_linear
                    (LLM.linear_class_predicate (Some ex)) gs bits) slots).
    apply: tree_map_ok; apply: sub_all nm => e nm.
    exact: predicate_list.
  by rewrite -/slots; case: (LLM.tree_map _ _).
- by move=> uns excluded; apply: quantize_nothing_selectable.
Qed.

End QuantizeFacts.

(** C9, as stated, fails on a model whose only linear layer is an 8-wide
    router: [quantize] without [excluded] returns normally. *)
Lemma quantize_without_excluded_can_succeed :
  Toy.llm_router.(_quantization) = None /\
  (LLM.quantize Toy.llm_router 64 4 None).1 = Ok tt.
Proof. by split; last exact: quantize_nothing_selectable. Qed.

(** C9 at the model with one attention projection. *)
Lemma quantize_without_excluded_raises_witness :
  LLM.quantize Toy.llm_wq 64 4 None
  = (Raise TypeError, mkLLM (model Toy.llm_wq) (Some (64%N, 4%N))) /\
  (LLM.quantize Toy.llm_wq 64 4 (Some [:: "output"%string])).1 = Ok tt /\
  (LLM.quantize Toy.llm_router 64 4 None).1 = Ok tt.
Proof.
have [_ raises with_list _] :=
  @quantize_without_excluded_raises _ _ Toy.llm_wq 64 4 (erefl _).
have [_ _ _ idle] :=
  @quantize_without_excluded_raises _ _ Toy.llm_router 64 4 (erefl _).
split; first exact: (raises (erefl _) (erefl _)).
split; first exact: (with_list (erefl _)).
exact: (idle (erefl _)).
Defined.

(** ** The LoRA lifecycle *)

Section Lifecycle.
Context {R : realFieldType} {mx : Runtime R} {eng : Engine mx}.

Lemma init_lora_adapted (self : TrainableLoRA mx) cfg num_layers
    target_modules rank alpha dropout scale g :
  _lora self = Some cfg ->
  TrainableLoRA.init_lora self num_layers target_modules rank alpha dropout
                          scale g = (Ok tt, self, g).
Proof. by rewrite /TrainableLoRA.init_lora => ->. Qed.

Lemma merge_and_unload_unadapted (self : TrainableLoRA mx) g :
  _lora self = None ->
  TrainableLoRA.merge_and_unload_lora self g =
  (mkTrainableLoRA
     (mkLLM (set_train (model (llm self)) false) (_quantization (llm self)))
     None [::], g).
Proof. by rewrite /TrainableLoRA.merge_and_unload_lora => ->. Qed.

(** C7. On an Adapted wrapper [init_lora] returns with the wrapper and the
    random generator as they were.  [merge_and_unload_lora] always ends
    with the configuration cleared, the adapter list empty and training
    mode off; on an Unadapted wrapper it leaves the module tree alone. *)
Theorem lora_lifecycle (self : TrainableLoRA mx) :
  [/\ forall cfg num_layers target_modules rank alpha dropout scale g,
        _lora self = Some cfg ->
        TrainableLoRA.init_lora self num_layers target_modules rank alpha
                                dropout scale g = (Ok tt, self, g),
      forall g,
        let r := (TrainableLoRA.merge_and_unload_lora self g).1 in
        [/\ _lora r = None, _lora_modules r = [::] &
            training (model (llm r)) = false] &
      forall g,
        _lora self = None ->
        let r := TrainableLoRA.merge_and_unload_lora self g in
        named_modules (model (llm r.1)) = named_modules (model (llm self))
        /\ r.2 = g].
Proof.
split; first by move=> *; apply: init_lora_adapted; eassumption.
- by [].
- by move=> g unadapted; rewrite merge_and_unload_unadapted.
Qed.

End Lifecycle.

(** The key pattern of the query and value projections. *)
Example is_query_value_example :
  [&& TrainableLoRA.is_query_value "layers.0.attention.wq",
      TrainableLoRA.is_query_value "layers.12.attention.wv",
      ~~ TrainableLoRA.is_query_value "layers.0.attention.wo",
      ~~ TrainableLoRA.is_query_value "layers.0.attention.wq.linear" &
      ~~ TrainableLoRA.is_query_value "wq"].
Proof. by vm_compute. Qed.

(** [init_lora] on an Unadapted wrapper with one query projection: the
    projection is wrapped, the model frozen and put in training mode. *)
Example init_lora_example :
  let r := TrainableLoRA.init_lora (eng := Toy.engine) Toy.unadapted (-1)
             "query_value" 1 16%:R (1 / 20%:R) 10%:R 0%N in
  [/\ r.1.1 = Ok tt,
      _lora r.1.2 = Some (mkLoraConfig 0 "query_value" 1),
      _lora_modules r.1.2 = [:: "layers.0.attention.wq"%string],
      size (TrainableLoRA.lora_modules r.1.2) = 1%N &
      frozen (model (llm r.1.2)) && training (model (llm r.1.2))].
Proof. by vm_compute. Qed.

(** C7 at an Adapted wrapper. *)
Lemma lora_lifecycle_witness :
  _lora Toy.adapted = Some (mkLoraConfig 0 "query_value" 8) /\
  TrainableLoRA.init_lora (eng := Toy.engine) Toy.adapted (-1) "all_linear"
                          8 16%:R (1 / 20%:R) 10%:R 0%N
  = (Ok tt, Toy.adapted, 0%N) /\
  _lora (TrainableLoRA.merge_and_unload_lora Toy.adapted 0%N).1 = None.
Proof.
have [re_init reset _] := lora_lifecycle (eng := Toy.engine) Toy.adapted.
split; first by [].
split; first exact: (re_init _ _ _ _ _ _ _ _ (erefl _)).
by have [] := reset 0%N.
Defined.

(** ** evaluate *)

Section EvaluateFacts.
Context {R : realFieldType} {mx : Runtime R} {eng : Engine mx}.
Context {ds : DatasetOps batch}.

Lemma foldl_addr (z : R) (s : seq R) : foldl +%R z s = z + \sum_(x <- s) x.
Proof.
elim: s z => [|x s IH] z /=; first by rewrite big_nil addr0.
by rewrite IH big_cons addrA.
Qed.

Lemma np_sumE (s : seq R) : TrainableLoRA.np_sum s = \sum_(x <- s) x.
Proof. by rewrite /TrainableLoRA.np_sum foldl_addr add0r. Qed.

(** The loop consumes the first [range] batches, appends their weighted
    losses, adds up their token counts and hands the wrapper back. *)
Lemma evaluate_loopE (self : TrainableLoRA mx) range batches all_losses nt :
  TrainableLoRA.evaluate_loop self range batches all_losses nt =
  (all_losses ++ [seq (model_loss (model (llm self)) b).1 *
                      ((model_loss (model (llm self)) b).2)%:R
                 | b <- take range batches],
   (nt + \sum_(b <- take range batches) (model_loss (model (llm self)) b).2)%N,
   self).
Proof.
elim: range batches all_losses nt => [|range IH] batches all_losses nt /=.
  by rewrite take0 cats0 big_nil addn0.
case: batches => [|b batches] /=; first by rewrite cats0 big_nil addn0.
by rewrite IH /= cat_rcons big_cons addnA.
Qed.

(** C6. [evaluate] draws the first [num_batches] batches of the iterator
    (all of them when there are fewer).  When their token counts do not add
    up to zero it returns the token-weighted average of their losses (and
    no number otherwise); the wrapper, hence the model, is as it was.  Two
    batches with losses 2 and 3 over 10 and 20 tokens give
    [(2*10 + 3*20) / 30]. *)
Theorem evaluate_token_weighted_average (self : TrainableLoRA mx)
    (dataset : Dataset) (batch_size num_batches : nat) :
  let batches := (iterate_batches dataset batch_size false).1 in
  let results :=
    [seq model_loss (model (llm self)) b | b <- take num_batches batches] in
  let ev := TrainableLoRA.evaluate self dataset batch_size num_batches in
  [/\ (\sum_(r <- results) r.2 != 0)%N ->
      ev.1.1 = Some (token_weighted_average results),
      (\sum_(r <- results) r.2 = 0)%N -> ev.1.1 = None,
      ev.1.2 = self &
      forall b1 b2,
        batches = [:: b1; b2] -> num_batches = 2%N ->
        model_loss (model (llm self)) b1 = (2%:R, 10%N) ->
        model_loss (model (llm self)) b2 = (3%:R, 20%N) ->
        ev.1.1 = Some ((2%:R * 10%:R + 3%:R * 20%:R) / 30%:R)].
Proof.
rewrite /TrainableLoRA.evaluate evaluate_loopE /= add0n np_sumE big_map.
rewrite /TrainableLoRA.np_divide /token_weighted_average !big_map.
split=> // [/negbTE -> //|-> //|b1 b2 -> -> l1 l2].
by rewrite /= !big_cons !big_nil l1 l2 /= addr0.
Qed.

End EvaluateFacts.

(** C6 at the two validation batches of the example. *)
Lemma evaluate_token_weighted_average_witness :
  let ev := TrainableLoRA.evaluate (eng := Toy.engine) (ds := Toy.dataset)
              Toy.adapted Toy.validation 4 2 in
  [/\ ev.1.1 = Some (token_weighted_average [:: (2%:R, 10%N); (3%:R, 20%N)]),
      ev.1.1 = Some ((2%:R * 10%:R + 3%:R * 20%:R) / 30%:R) &
      ev.1.2 = Toy.adapted].
Proof.
have [average _ unchanged example] :=
  evaluate_token_weighted_average (eng := Toy.engine) (ds := Toy.dataset)
    Toy.adapted Toy.validation 4 2.
split; [apply: average; rewrite /= !big_cons big_nil | | exact: unchanged].
  by [].
exact: (example (2%:R, 10%N) (3%:R, 20%N) (erefl _) (erefl _) (erefl _)
                (erefl _)).
Defined.

(** ** train *)

Section TrainFacts.
Context {R : realFieldType} {mx : Runtime R} {eng : Engine mx}.
Context {ds : DatasetOps batch}.
Variables (batch_size report_steps eval_steps validation_batches : nat).

Section WithCallback.
Variable callback : nat -> option R -> option string.
Hypothesis report_steps_pos : report_steps != 0%N.
Hypothesis eval_steps_pos : eval_steps != 0%N.
Hypothesis batches_left :
  forall d : @Dataset _ ds, (0 < size (iterate_batches d batch_size true).1)%N.




End WithCallback.

(** Without a callback the step numbered 0 raises, after its update and
    after the validation loss has been written. *)
Lemma train_step_no_callback (st : train_state ds) :
  report_steps != 0%N ->
  (0 < size (iterate_batches (t_training st) batch_size true).1)%N ->
  let r := TrainableLoRA.train_step batch_size report_steps eval_steps
             None validation_batches 0 st in
  [/\ r.1 = Raise TypeError, updates r.2 = (updates st).+1 &
      exists w v, t_written r.2 = rcons w (ValidationLoss 1 v)].
Proof.
move=> /negbTE rs; rewrite /TrainableLoRA.train_step /=.
case: (iterate_batches _ _ _) => [[|b bs] d] //= _.
rewrite /TrainableLoRA.py_mod rs /=.
by case: ifP => _ /=; split=> //; eexists; eexists.
Qed.

(** Loops without a step to run return normally and update nothing. *)
Lemma train_epochs_idle eval_callback epochs (st : train_state ds) :
  TrainableLoRA.train_epochs batch_size report_steps eval_steps eval_callback
                             validation_batches 0 epochs st = (Ok tt, st).
Proof. by elim: epochs => [|epoch epochs IH]. Qed.

End TrainFacts.

Section TrainClaims.
Context {R : realFieldType} {mx : Runtime R} {eng : Engine mx}.
Context {ds : DatasetOps batch}.


(** C10, as it holds.  For a batch size and a report interval that are not
    zero and a training iterator that has a batch: when at least one step
    runs (an epoch and an iteration to run), [train] without a callback
    raises [TypeError] in the first step, after one update and after the
    validation loss of step 1 has been written; when no step runs it
    returns normally, without an update. *)
Theorem train_without_callback_raises (self : TrainableLoRA mx)
    (dataset_training dataset_validation : Dataset) batch_size learning_rate
    epochs iterations report_steps eval_steps validation_samples debug k :
  batch_size != 0%N -> report_steps != 0%N ->
  (0 < size (iterate_batches dataset_training batch_size true).1)%N ->
  TrainableLoRA.train_iterations iterations dataset_training batch_size
  = Ok k ->
  let r := TrainableLoRA.train self dataset_training dataset_validation
             batch_size learning_rate epochs iterations report_steps
             eval_steps None validation_samples debug in
  ((0 < epochs)%N -> (0 < k)%N ->
   exists st, [/\ r = (Raise TypeError, Some st), updates st = 1%N &
                  exists w v, t_written st = rcons w (ValidationLoss 1 v)]) /\
  ((epochs = 0%N) \/ (k = 0%N) ->
   exists st, r = (Ok tt, Some st) /\ updates st = 0%N).
Proof.
move=> bs rs batch its; rewrite /TrainableLoRA.train its.
rewrite /TrainableLoRA.py_floordiv (negbTE bs) /=.
set st0 := mkTrainState _ _ _ _ _ _ _ _.
split.
- case: epochs => [|epochs] // _; case: k {its} => [|k] // _.
  rewrite /= mul0n add0n.
  have [] := @train_step_no_callback _ _ _ _ batch_size report_steps
               eval_steps (validation_samples %/ batch_size) st0 rs batch.
  set step := TrainableLoRA.train_step _ _ _ _ _ _ _.
  by move=> -> up written /=; exists step.2.
- case=> [->|->] /=; first by exists st0.
  by rewrite train_epochs_idle; exists st0.
Qed.

End TrainClaims.


(** C10, as stated, fails when no step runs: on 3 training examples with
    batch size 4 (and the default [iterations = 0]) [train] without a
    callback returns normally. *)
Lemma train_without_callback_can_complete :
  (TrainableLoRA.train (eng := Toy.engine) (ds := Toy.dataset) Toy.adapted
     Toy.train3 Toy.validation 4 (10%:R ^- 5) 1 0 10 100 None 40 false).1
  = Ok tt.
Proof. by []. Qed.

(** C10 on 100 training examples with batch size 4. *)
Lemma train_without_callback_raises_witness :
  exists st,
    [/\ TrainableLoRA.train (eng := Toy.engine) (ds := Toy.dataset)
          Toy.adapted Toy.train100 Toy.validation 4 (10%:R ^- 5) 1 0 10
          100 None 40 false = (Raise TypeError, Some st),
        updates st = 1%N &
        exists w v, t_written st = rcons w (ValidationLoss 1 v)].
Proof.
have [fails _] :=
  @train_without_callback_raises _ _ Toy.engine Toy.dataset Toy.adapted
    Toy.train100 Toy.validation 4 (10%:R ^- 5) 1 0 10 100 40 false 25
    (erefl _) (erefl _) (erefl _) (erefl _).
exact: (fails (erefl _) (erefl _)).
Defined.

(** * Further properties of the code *)

(** ** Module names, weights and quantization *)

Section TreeFacts.
Context {R : realFieldType} {mx : Runtime R}.
Implicit Types (slots repl new : seq (string * Module mx)).

Lemma key_eqbE (k : string) (e : string * Module mx) : key_eqb k e = (k == e.1).
Proof. by []. Qed.

Lemma lookup_notin k repl : k \notin keys repl -> lookup k repl = None.
Proof.
elim: repl => [|e repl IH] //=; rewrite inE negb_or => /andP [ne /IH ->].
by rewrite key_eqbE (negbTE ne).
Qed.

Lemma lookup_cons_other k k' m repl :
  k' != k -> lookup k' ((k, m) :: repl) = lookup k' repl.
Proof. by move=> /negbTE ne /=; rewrite key_eqbE /= ne; case: (lookup k' repl). Qed.

Lemma lookup_cons_same k m repl :
  k \notin keys repl -> lookup k ((k, m) :: repl) = Some m.
Proof. by move=> /lookup_notin /= ->; rewrite key_eqbE /= eqxx. Qed.

Lemma selection_keys slots repl new :
  selection slots repl new ->
  subseq (keys repl) (keys slots) /\ keys new = keys slots.
Proof.
elim=> [|e s r n _ [sub same]|k m m' s r n _ [sub same]] //.
- split; last by rewrite /keys /= -/(keys n) same.
  by apply: (subseq_trans sub); apply: subseq_cons.
- by rewrite /keys /= eqxx -/(keys n) same.
Qed.

Lemma update_other k m slots repl :
  k \notin keys slots ->
  [seq (e.1, if lookup e.1 ((k, m) :: repl) is Some m' then m' else e.2)
  | e <- slots]
  = [seq (e.1, if lookup e.1 repl is Some m' then m' else e.2) | e <- slots].
Proof.
elim: slots => [|e slots IH] //.
rewrite /keys map_cons inE negb_or => /andP [ne nin].
by rewrite !map_cons IH // lookup_cons_other // eq_sym.
Qed.

(** Replacing a selection of uniquely keyed slots gives the list with the
    selected slots swapped. *)
Lemma update_selection slots repl new :
  uniq (keys slots) -> selection slots repl new ->
  [seq (e.1, if lookup e.1 repl is Some m then m else e.2) | e <- slots] = new.
Proof.
move=> un sel; elim: sel un
  => [|[k m] s r n sel IH|k m m' s r n sel IH] //;
  rewrite /keys map_cons cons_uniq -/(keys s) => /andP [fresh un].
- have [sub _] := selection_keys sel.
  rewrite map_cons IH // lookup_notin //.
  by apply: contra fresh; apply: mem_subseq.
- have [sub _] := selection_keys sel.
  have notin : k \notin keys r by apply: contra fresh; apply: mem_subseq.
  by rewrite map_cons update_other // IH // lookup_cons_same.
Qed.

Lemma selection_all (f : Module mx -> Module mx) slots :
  selection slots [seq (e.1, f e.2) | e <- slots]
            [seq (e.1, f e.2) | e <- slots].
Proof.
elim: slots => [|[k m] slots IH] /=; first exact: selection_nil.
exact: selection_swap.
Qed.

Lemma update_modules_nil (model : Model mx) : update_modules model [::] = model.
Proof.
case: model => slots f t; rewrite /update_modules /=; congr mkModel.
by elim: slots => [|[k m] slots IH] //=; rewrite IH.
Qed.

Lemma rename_adapter_idem k (a : LoRALinear mx) :
  rename_adapter k (rename_adapter k a) = rename_adapter k a.
Proof. by case: a => [[p|q] r d s la lb n]. Qed.

Lemma rename_idem k (m : Module mx) : rename k (rename k m) = rename k m.
Proof. by case: m => [p|q|a|o] //=; rewrite rename_adapter_idem. Qed.

Lemma slot_name_rename k (m : Module mx) : slot_name (rename k m) = Some k.
Proof. by case: m => [p|q|[[p|q] r d s la lb n]|o]. Qed.

Lemma named_rename k (m : Module mx) : named (rename k m).
Proof. by case: m => [p|q|[[p|q] r d s la lb n]|o]. Qed.

(** X1. [_update_names] keeps the keys and the order of the module tree
    and gives the module of every slot its key as [name]; afterwards every
    linear leaf carries a name, and a second pass changes nothing. *)
Theorem update_names_sets_keys (self : LLM mx) :
  let renamed := LLM._update_names self in
  [/\ keys (named_modules (model renamed)) = keys (named_modules (model self)),
      all (fun e => slot_name e.2 == Some e.1) (named_modules (model renamed)),
      all (fun e => named e.2) (named_modules (model renamed)) &
      LLM._update_names renamed = renamed].
Proof.
rewrite /LLM._update_names /keys /=; split.
- by rewrite -map_comp.
- rewrite all_map; elim: (named_modules _) => //= e s ->.
  by rewrite slot_name_rename eqxx.
- rewrite all_map; elim: (named_modules _) => //= e s ->.
  by rewrite named_rename.
- congr (mkLLM (mkModel _ _ _) _); rewrite -map_comp.
  by apply: eq_map => e /=; rewrite rename_idem.
Qed.

Lemma mem_stringE (n : string) (l : seq string) : LLM.mem_string n l = (n \in l).
Proof. by elim: l => [|x l IH] //=; rewrite inE -IH. Qed.

Lemma verify_weights_loopE names weights result warned :
  LLM.verify_weights_loop names weights result warned
  = (result && all (fun n => n \in weights) names,
     warned ++ [seq n <- names | n \notin weights]).
Proof.
elim: names result warned => [|n names IH] result warned /=.
  by rewrite andbT cats0.
rewrite mem_stringE; case: (n \in weights) => /=; rewrite IH //.
by rewrite andbF cat_rcons.
Qed.

(** X2. [verify_weights] returns [True] exactly when every parameter name
    of the model is a key of [weights], and it logs one warning for each
    missing name, in the order of the parameters: it does not stop at the
    first one, and keys of [weights] the model does not have go
    unnoticed. *)
Theorem verify_weights_reports_missing parameter_names (self : LLM mx)
    (weights : seq string) :
  LLM.verify_weights parameter_names self weights
  = (all (fun n => n \in weights) (parameter_names (model self)),
     [seq n <- parameter_names (model self) | n \notin weights]).
Proof. by rewrite /LLM.verify_weights verify_weights_loopE. Qed.

Lemma quantize_if_linear_named ex gs bits (m : Module mx) :
  named m ->
  LLM._quantize_if_linear (LLM.linear_class_predicate (Some ex)) gs bits m
  = Ok (quantized_slot ex gs bits m).
Proof.
case: m => [p|q|a|o] //=; rewrite /quantized_slot /= /chosen.
- by case: (output_dims p != 8%N) => //=; case: (name p).
- case: (linear a) => [p|q] //=.
  by case: (output_dims p != 8%N) => //=; case: (name p).
Qed.

Lemma tree_map_named ex gs bits slots :
  all (fun e => named e.2) slots ->
  LLM.tree_map (LLM._quantize_if_linear (LLM.linear_class_predicate (Some ex))
                                        gs bits) slots
  = Ok [seq (e.1, quantized_slot ex gs bits e.2) | e <- slots].
Proof.
elim: slots => [|e slots IH] //= /andP [nm /IH ->].
by rewrite quantize_if_linear_named.
Qed.

(** [quantize] with a list, on named modules under distinct keys. *)
Lemma quantize_named (self : LLM mx) gs bits ex :
  _quantization self = None ->
  uniq (keys (named_modules (model self))) ->
  all (fun e => named e.2) (named_modules (model self)) ->
  LLM.quantize self gs bits (Some ex)
  = (Ok tt,
     mkLLM (mkModel [seq (e.1, rename e.1 (quantized_slot ex gs bits e.2))
                    | e <- named_modules (model self)]
                    (frozen (model self)) (training (model self)))
           (Some (gs, bits))).
Proof.
move=> fresh un nm.
rewrite /LLM.quantize fresh /LLM.quantize_module /= tree_map_named //=.
rewrite /LLM._update_names /update_modules /=.
by rewrite (update_selection un (selection_all _ _)) -map_comp.
Qed.

(** X3. On a model that is not quantized yet, whose modules sit under
    distinct keys and carry their names, [quantize] with a list [excluded]
    returns normally, records group size and bits, and replaces exactly
    the plain linear leaves whose output width is not 8 and whose name is
    not in [excluded] by their quantization (inside an adapter, the
    wrapped layer); every other slot, the keys, their order and the
    frozen and training flags stay as they were. *)
Theorem quantize_replaces_chosen_layers (self : LLM mx) gs bits ex :
  _quantization self = None ->
  uniq (keys (named_modules (model self))) ->
  all (fun e => named e.2) (named_modules (model self)) ->
  LLM.quantize self gs bits (Some ex)
  = (Ok tt,
     mkLLM (mkModel [seq (e.1, rename e.1 (quantized_slot ex gs bits e.2))
                    | e <- named_modules (model self)]
                    (frozen (model self)) (training (model self)))
           (Some (gs, bits))).
Proof.
move=> fresh un nm.
rewrite /LLM.quantize fresh /LLM.quantize_module /= tree_map_named //=.
rewrite /LLM._update_names /update_modules /=.
by rewrite (update_selection un (selection_all _ _)) -map_comp.
Qed.

Lemma quantize_marks (self : LLM mx) gs bits ex :
  isSome (_quantization (LLM.quantize self gs bits ex).2).
Proof.
rewrite /LLM.quantize; case q: (_quantization self) => [d|] /=.
  by rewrite q.
by case: (LLM.quantize_module _ _ _ _).
Qed.

(** X4. Whatever a call of [quantize] did, also when it raised, the
    wrapper counts as quantized afterwards: any further call of [quantize],
    with any arguments, returns normally and changes nothing. *)
Theorem quantize_once_only (self : LLM mx) gs bits ex gs' bits' ex' :
  let once := (LLM.quantize self gs bits ex).2 in
  LLM.quantize once gs' bits' ex' = (Ok tt, once).
Proof.
move=> once; have := quantize_marks self gs bits ex.
by rewrite -/once /LLM.quantize; case: (_quantization once).
Qed.

Lemma dequantize_loop_raises slots layers :
  has (fun e => LLM.holds_quantized e.2) slots ->
  LLM.dequantize_loop slots layers = Raise TypeError.
Proof. by elim: slots => [|e slots IH] //=; case: ifP => //= _ /IH. Qed.

(** X5. On a model that holds a quantized linear layer, [dequantize]
    raises [TypeError] when a quantization is recorded (the loop calls the
    packed weight array, [module.weight()]) and leaves the wrapper as it
    was, still marked as quantized; when none is recorded it does
    nothing. *)
Theorem dequantize_raises_on_quantized_layer (self : LLM mx) :
  has (fun e => LLM.holds_quantized e.2) (named_modules (model self)) ->
  LLM.dequantize self
  = if _quantization self is Some _ then (Raise TypeError, self)
    else (Ok tt, self).
Proof.
move=> quant; rewrite /LLM.dequantize.
by case: (_quantization self) => // d; rewrite dequantize_loop_raises.
Qed.

Lemma holds_quantized_picked ex gs bits k (m : Module mx) :
  picks ex m -> LLM.holds_quantized (rename k (quantized_slot ex gs bits m)).
Proof.
rewrite /quantized_slot; case: m => [p|q|a|o] //= ->.
- by [].
- by case: a => [[p|q] r d s la lb n].
Qed.

(** X6. [quantize] followed by [dequantize] is no round trip: once
    [quantize] (with a list, on named modules under distinct keys) has
    replaced at least one layer, [dequantize] raises [TypeError] and the
    model stays quantized. *)
Theorem quantize_then_dequantize_raises (self : LLM mx) gs bits ex :
  _quantization self = None ->
  uniq (keys (named_modules (model self))) ->
  all (fun e => named e.2) (named_modules (model self)) ->
  has (fun e => picks ex e.2) (named_modules (model self)) ->
  let quantized := (LLM.quantize self gs bits (Some ex)).2 in
  LLM.dequantize quantized = (Raise TypeError, quantized).
Proof.
move=> fresh un nm picked.
rewrite quantize_named //= /LLM.dequantize /=.
rewrite dequantize_loop_raises // has_map.
elim: (named_modules _) picked => [|e slots IH] //= /orP [p|/IH ->].
  by rewrite holds_quantized_picked.
by rewrite orbT.
Qed.

End TreeFacts.

(** X3 at the model with one attention projection: the projection is
    quantized. *)
Lemma quantize_replaces_chosen_layers_witness :
  LLM.quantize Toy.llm_wq 64 4 (Some [:: "output"%string])
  = (Ok tt,
     mkLLM (mkModel
              [seq (e.1, rename e.1
                           (quantized_slot [:: "output"%string] 64 4 e.2))
              | e <- named_modules (model Toy.llm_wq)]
              false false)
           (Some (64%N, 4%N))).
Proof.
exact: (@quantize_replaces_chosen_layers _ _ Toy.llm_wq 64 4
          [:: "output"%string] (erefl _) (erefl _) (erefl _)).
Defined.

(** X5 at that model, once quantized. *)
Lemma dequantize_raises_on_quantized_layer_witness :
  LLM.dequantize (LLM.quantize Toy.llm_wq 64 4 (Some [::])).2
  = (Raise TypeError, (LLM.quantize Toy.llm_wq 64 4 (Some [::])).2).
Proof.
exact: (@dequantize_raises_on_quantized_layer _ _
          (LLM.quantize Toy.llm_wq 64 4 (Some [::])).2 (erefl _)).
Defined.

(** X6 at the model with one attention projection. *)
Lemma quantize_then_dequantize_raises_witness :
  LLM.dequantize (LLM.quantize Toy.llm_wq 64 4 (Some [:: "output"%string])).2
  = (Raise TypeError,
     (LLM.quantize Toy.llm_wq 64 4 (Some [:: "output"%string])).2).
Proof.
exact: (@quantize_then_dequantize_raises _ _ Toy.llm_wq 64 4
          [:: "output"%string] (erefl _) (erefl _) (erefl _) (erefl _)).
Defined.

(** ** More on the generation loop *)

Section GenerateMore.
Context {R : realFieldType} {mx : Runtime R} {eng : Engine mx}.
Context {tok : Tokenizer}.
Variable self : LLM mx.

(** X7. With a flush interval that is not zero, the token ids [generate]
    emits, over all its chunks, are the first [num_tokens] tokens of
    [generate_step] cut before the first end-of-sequence token: no token
    is lost or repeated at a chunk boundary, and the chunking does not
    change what is generated. *)
Theorem generate_emits_draws_until_eos (prompt : string) temp num_tokens
    flush g :
  flush != 0%N ->
  LLM.emitted (LLM.generate_tokens self prompt temp num_tokens flush g)
  = until_eos (draws self (encode prompt) temp num_tokens LLM.NotStarted g).
Proof. by move=> fl; rewrite /LLM.generate_tokens generate_loop_emits. Qed.

Lemma flush_hit n flush :
  (0 < n <= flush)%N -> ((n %% flush)%N == 0%N) = (n == flush).
Proof.
move=> /andP [pos]; rewrite leq_eqVlt => /orP [/eqP -> |lt].
  by rewrite modnn !eqxx.
by rewrite modn_small // (ltn_eqF lt) (gtn_eqF pos).
Qed.

Lemma generate_loop_chunks prompt temp flush range st g tokens nt steps :
  flush != 0%N -> (size tokens < flush)%N ->
  exists front final,
    [/\ yields (LLM.generate_loop self prompt temp flush range st g tokens
                                  nt steps) = rcons front final,
        all (fun c => size c.1 == flush) front & (size final.1 < flush)%N].
Proof.
move=> fl0; have fl := negbTE fl0.
elim: range st g tokens nt steps => [|range IH] st g tokens nt steps /= small.
  by exists [::], (tokens, (nt + size tokens)%N).
case: ifP => _; first by exists [::], (tokens, (nt + size tokens)%N).
rewrite fl flush_hit size_rcons //.
case: eqP => [full|/eqP part].
- set nxt := LLM.generate_step self prompt temp st g.
  have [|front [final [chunks sizes last_small]]] :=
    IH nxt.1.2 nxt.2 [::] (nt + (size tokens).+1)%N steps.+1.
    by rewrite lt0n.
  exists ((rcons tokens nxt.1.1, (nt + (size tokens).+1)%N) :: front), final.
  by split; rewrite //= ?chunks // size_rcons full eqxx.
- apply: IH; rewrite size_rcons.
  by rewrite ltn_neqAle part.
Qed.

(** X8. With a flush interval that is not zero, [generate] always yields
    at least one chunk; every chunk but the last holds exactly [flush]
    tokens, and the last one fewer than [flush] (none, when the run ends
    on a chunk boundary). *)
Theorem generate_chunk_sizes (prompt : string) temp num_tokens flush g :
  flush != 0%N ->
  exists front final,
    [/\ yields (LLM.generate_tokens self prompt temp num_tokens flush g)
        = rcons front final,
        all (fun c => size c.1 == flush) front & (size final.1 < flush)%N].
Proof.
by move=> fl; apply: generate_loop_chunks; rewrite // lt0n.
Qed.

Lemma generate_loop_stats prompt temp flush range st g tokens nt steps :
  let ys := yields (LLM.generate_loop self prompt temp flush range st g
                                      tokens nt steps) in
  [seq c.2 | c <- ys] = scanl addn nt [seq size c.1 | c <- ys].
Proof.
elim: range st g tokens nt steps => [|range IH] st g tokens nt steps //=.
case: ifP => // _; case: ifP => // _; case: ifP => _ /=; last exact: IH.
by rewrite IH.
Qed.

Lemma last_scanl_addn x (s : seq nat) :
  last x (scanl addn x s) = (x + sumn s)%N.
Proof. by elim: s x => [|y s IH] x /=; rewrite ?addn0 // IH addnA. Qed.

(** X9. The counter [stats["num_tokens"]] read with a chunk is the number
    of tokens in the chunks yielded so far, that chunk included; with the
    last chunk it is the number of tokens emitted in all. *)
Theorem generate_stats_running_total (prompt : string) temp num_tokens
    flush g :
  let r := LLM.generate_tokens self prompt temp num_tokens flush g in
  [seq c.2 | c <- yields r] = scanl addn 0 [seq size c.1 | c <- yields r] /\
  last 0%N [seq c.2 | c <- yields r] = size (LLM.emitted r).
Proof.
move=> r.
have stats : [seq c.2 | c <- yields r]
             = scanl addn 0 [seq size c.1 | c <- yields r].
  exact: generate_loop_stats.
split=> //.
by rewrite stats last_scanl_addn add0n /LLM.emitted size_flatten /shape
           -map_comp.
Qed.

(** X10. With [flush = 0] and a token budget that is not zero the first
    token decides: when it is the end-of-sequence token [generate] yields
    one empty chunk and ends normally; otherwise [len(tokens) % flush]
    raises [ZeroDivisionError] after one sampling step, before anything is
    yielded. *)
Theorem generate_zero_flush (prompt : string) temp num_tokens g :
  let first :=
    (LLM.generate_step self (encode prompt) temp LLM.NotStarted g).1.1 in
  let r := LLM.generate_tokens self prompt temp num_tokens.+1 0 g in
  if first == eos_id then yields r = [:: ([::], 0%N)] /\ raised r = None
  else [/\ yields r = [::], raised r = Some ZeroDivisionError &
           sampling_steps r = 1%N].
Proof. by rewrite /LLM.generate_tokens /=; case: (_ == eos_id). Qed.

End GenerateMore.

(** X7 on the decoder that always prefers token 1, for a budget of three
    tokens flushed in pairs. *)
Lemma generate_emits_draws_until_eos_witness :
  LLM.emitted (LLM.generate_tokens (eng := Toy.engine) (tok := Toy.tokenizer)
                 Toy.llm_wq "hello" 0 3 2 0%N)
  = until_eos (tok := Toy.tokenizer)
      (draws (eng := Toy.engine) Toy.llm_wq
             (@encode Toy.tokenizer "hello") 0 3 LLM.NotStarted 0%N).
Proof.
exact: (@generate_emits_draws_until_eos _ _ Toy.engine Toy.tokenizer
          Toy.llm_wq "hello" 0 3 2 0%N (erefl _)).
Defined.

(** X8 on the same run: one chunk of two tokens, then one of one. *)
Lemma generate_chunk_sizes_witness :
  exists front final,
    [/\ yields (LLM.generate_tokens (eng := Toy.engine)
                  (tok := Toy.tokenizer) Toy.llm_wq "hello" 0 3 2 0%N)
        = rcons front final,
        all (fun c => size c.1 == 2%N) front & (size final.1 < 2)%N].
Proof.
exact: (@generate_chunk_sizes _ _ Toy.engine Toy.tokenizer Toy.llm_wq
          "hello" 0 3 2 0%N (erefl _)).
Defined.

(** ** More on adapters *)

Section AdapterMore.
Context {R : realFieldType} {mx : Runtime R}.

Lemma array_eta m n (w : array R m n) : Array (dtype w) (data w) = w.
Proof. by case: w. Qed.

Lemma Linear_eta (p : Linear R) : mkLinear (weight p) (bias p) (name p) = p.
Proof. by case: p. Qed.

(** Merging an adapter with a zero [B] around a plain layer gives the layer
    back and leaves the random generator alone. *)
Lemma merge_zero_b (a : LoRALinear mx) (p : Linear R) g :
  of_layer (linear a) = MLinear p -> data (lora_b a) = 0 ->
  LoRALinear.merge a g = (Plain p, g).
Proof.
case: a => [l r d s la lb n] /=; case: l la lb => [p'|q] la lb //= [e].
move: la lb; rewrite e {e p'} => la lb b0.
rewrite /LoRALinear.merge /= /astype /add /smul /transpose /matmul /=.
by rewrite b0 mulmx0 trmx0 scaler0 addr0 array_eta Linear_eta.
Qed.

(** X11. Wrapping a plain linear layer and merging the adapter at once is
    a round trip: [merge] returns the layer as it was, weight, dtype, bias
    and name, and does not advance the random generator. *)
Theorem wrap_then_merge_restores_layer (l : Linear R) r alpha dropout sc
    g a g' :
  LoRALinear.from_linear (Plain l) r alpha dropout sc g = (Ok a, g') ->
  forall g2, LoRALinear.merge a g2 = (Plain l, g2).
Proof.
move=> /from_linear_ok [holds b0] g2; apply: merge_zero_b => //.
by rewrite holds.
Qed.

(** X12. An adapter freshly wrapped around a quantized linear layer holds
    that layer.  On every input that has the dtype of the layer's scales
    (so that the cast [x.astype(dtype)] does nothing), in either mode and
    whatever the dropout mask, its forward evaluation returns the entries
    the quantized layer itself returns, in exact arithmetic; the array it
    returns is float32. *)
Theorem fresh_adapter_on_quantized_is_noop (q : QuantizedLinear mx) r alpha
    dropout sc g a g' :
  LoRALinear.from_linear (Quantized q) r alpha dropout sc g = (Ok a, g') ->
  linear a = Quantized q /\
  forall training b (x : array R b (in_dims (linear a))) g2,
    dtype x = scales_dtype (q_weight q) ->
    data (LoRALinear.call a training x g2).1 = data (layer_call (linear a) x)
    /\ dtype (LoRALinear.call a training x g2).1 = float32.
Proof.
move=> wrapped; have [wraps b0] := from_linear_ok wrapped.
have b32 := from_linear_b_dtype wrapped.
split=> // training b x g2 dx; split; last exact: call_dtype.
by apply: call_zero_b_same_dtype => //; rewrite dx wraps.
Qed.

(** X13. Merging preserves what an adapter around a plain layer computes:
    on an input that dropout lets through unchanged (evaluation mode, or a
    dropout probability of 0) the merged layer returns the entries the
    adapter returned, for any factors [A] and [B] and any scale. *)
Theorem merged_layer_computes_adapter_output (l : Linear R) r p s
    (A : array R (input_dims l) r) (B : array R r (output_dims l))
    nm g training b (x : array R b (input_dims l)) g2 :
  let a := @mkLoRALinear R mx (Plain l) r p s A B nm in
  (nn_dropout p training x g2).1 = x ->
  data (layer_call (LoRALinear.merge a g).1 x)
  = data (LoRALinear.call a training x g2).1.
Proof.
move=> a keep; rewrite /LoRALinear.call keep /= /nn.Linear_call /=.
have merged : data x *m (data (weight l) + s *: (data A *m data B)^T)^T
              = data x *m (data (weight l))^T
                + s *: (data x *m data A *m data B).
  by rewrite linearD /= linearZ /= trmxK mulmxDr -scalemxAr mulmxA.
by case: (bias l) => [bv|] /=; rewrite merged // addrAC.
Qed.

End AdapterMore.

(** X11 at the 1 x 1 layer of weight 1. *)
Lemma wrap_then_merge_restores_layer_witness :
  LoRALinear.from_linear (mx := Toy.runtime) (Plain Toy.plain1) 1 16%:R
                         (1 / 20%:R) 10%:R 0%N = (Ok Toy.adapter1, 2%N) /\
  LoRALinear.merge Toy.adapter1 7%N = (Plain Toy.plain1, 7%N).
Proof.
have wrapped : LoRALinear.from_linear (mx := Toy.runtime) (Plain Toy.plain1)
                 1 16%:R (1 / 20%:R) 10%:R 0%N = (Ok Toy.adapter1, 2%N).
  by rewrite from_linear_success; [reflexivity | vm_compute | ].
split; [exact: wrapped | exact: (wrap_then_merge_restores_layer wrapped)].
Defined.

(** X12 at the named quantized 1 x 1 layer of weight 1, on the input 1 in
    half precision. *)
Lemma fresh_adapter_on_quantized_is_noop_witness :
  LoRALinear.from_linear (mx := Toy.runtime) (Quantized ToyNamed.quant_wq) 1
                         16%:R (1 / 20%:R) 10%:R 0%N
  = (Ok ToyNamed.adapter_quant_wq, 2%N) /\
  (linear ToyNamed.adapter_quant_wq = Quantized ToyNamed.quant_wq /\
   (data (LoRALinear.call ToyNamed.adapter_quant_wq true ToyNamed.one16
                          0%N).1
    = data (layer_call (linear ToyNamed.adapter_quant_wq) ToyNamed.one16) /\
    dtype (LoRALinear.call ToyNamed.adapter_quant_wq true ToyNamed.one16
                           0%N).1
    = float32)).
Proof.
have wrapped : LoRALinear.from_linear (mx := Toy.runtime)
                 (Quantized ToyNamed.quant_wq) 1 16%:R (1 / 20%:R) 10%:R 0%N
               = (Ok ToyNamed.adapter_quant_wq, 2%N).
  by rewrite from_linear_success; [reflexivity | vm_compute | ].
have [wraps noop] := fresh_adapter_on_quantized_is_noop wrapped.
split; first exact: wrapped.
split; first exact: wraps.
exact: (noop true 1%N ToyNamed.one16 0%N (erefl _)).
Defined.

(** X13 at the 1 x 1 layer of weight 1 with [A = B = 1] and scale 1, on
    the input 2. *)
Lemma merged_layer_computes_adapter_output_witness :
  data (layer_call
          (LoRALinear.merge
             (@mkLoRALinear rat Toy.runtime (Plain Toy.plain1) 1 0 1
                (Toy.scalar float32 1) (Toy.scalar float32 1) None) 0%N).1
          (Toy.scalar float32 2%:R))
  = data (LoRALinear.call
            (@mkLoRALinear rat Toy.runtime (Plain Toy.plain1) 1 0 1
               (Toy.scalar float32 1) (Toy.scalar float32 1) None)
            true (Toy.scalar float32 2%:R) 0%N).1.
Proof.
exact: (@merged_layer_computes_adapter_output _ Toy.runtime Toy.plain1 1 0 1
          (Toy.scalar float32 1) (Toy.scalar float32 1) None 0%N true 1
          (Toy.scalar float32 2%:R) 0%N (erefl _)).
Defined.

(** ** The adapters of a model *)

Section AdaptFacts.
Context {R : realFieldType} {mx : Runtime R} {eng : Engine mx}.
Implicit Types (slots new : seq (string * Module mx)).
Implicit Types (wrapped : seq (string * LoRALinear mx)).

Lemma wrap_ok (m : Module mx) r alpha dropout sc g :
  0 <= dropout < 1 -> r != 0%N -> TrainableLoRA.is_linear (EmptyString, m) ->
  exists a g',
    [/\ TrainableLoRA.wrap m r alpha dropout sc g = (Ok a, g'),
        of_layer (linear a) = m, data (lora_b a) = 0, rank a = r &
        scale a = sc * (alpha / r%:R)].
Proof.
move=> dr rk; case: m => [p|q|a|o] //= _.
- by rewrite from_linear_success //; eexists; eexists; split.
- by rewrite from_linear_success //; eexists; eexists; split.
Qed.

Lemma wrap_selected_ok select slots r alpha dropout sc g :
  0 <= dropout < 1 -> r != 0%N ->
  all (fun e => select e ==> TrainableLoRA.is_linear e) slots ->
  exists wrapped new g',
    TrainableLoRA.wrap_selected select slots r alpha dropout sc g
    = (Ok wrapped, g') /\
    wrapping select r (sc * (alpha / r%:R)) slots wrapped new.
Proof.
move=> dr rk; elim: slots g => [|[k m] slots IH] g /=.
  by exists [::], [::], g; split=> //; exact: wrapping_nil.
case sel: (select (k, m)) => /=; last first.
  move=> rest; have [wrapped [new [g' [-> wr]]]] := IH g rest.
  exists wrapped, ((k, m) :: new), g'; split=> //.
  by apply: wrapping_skip => //; rewrite sel.
move=> /andP [lin rest].
have [a [g1 [-> holds b0 ra sa]]] := @wrap_ok m r alpha dropout sc g dr rk lin.
have [wrapped [new [g' [-> wr]]]] := IH g1 rest.
exists ((k, a) :: wrapped), ((k, MLoRALinear a) :: new), g'; split=> //.
exact: wrapping_wrap.
Qed.

Lemma wrapping_selection select r sc slots wrapped new :
  wrapping select r sc slots wrapped new ->
  selection slots (as_modules wrapped) new.
Proof.
elim=> [|e s w n _ _ IH|k m a s w n _ _ _ _ _ _ IH].
- exact: selection_nil.
- exact: selection_keep.
- exact: selection_swap.
Qed.

Lemma wrapping_keys select r sc slots wrapped new :
  wrapping select r sc slots wrapped new ->
  [seq e.1 | e <- wrapped] = [seq e.1 | e <- slots & select e].
Proof.
elim=> [|e s w n /negbTE ns _ IH|k m a s w n sel _ _ _ _ _ IH] //=.
- by rewrite ns.
- by rewrite sel /= IH.
Qed.

Lemma wrapping_shape select r sc slots wrapped new :
  wrapping select r sc slots wrapped new ->
  subseq [seq e.1 | e <- wrapped] (keys slots) /\ keys new = keys slots.
Proof.
move=> /wrapping_selection /selection_keys [sub same]; split=> //.
by move: sub; rewrite /keys /as_modules -map_comp.
Qed.

Lemma adapters_other k m new (ks : seq string) :
  k \notin ks ->
  pmap (adapter_at ((k, m) :: new)) ks = pmap (adapter_at new) ks.
Proof.
elim: ks => [|k' ks IH] //; rewrite inE negb_or => /andP [ne /IH e].
by rewrite /= e /adapter_at lookup_cons_other // eq_sym.
Qed.

Lemma wrapping_lookup select r sc slots wrapped new :
  uniq (keys slots) -> wrapping select r sc slots wrapped new ->
  pmap (adapter_at new) [seq e.1 | e <- wrapped] = wrapped.
Proof.
move=> un wr; elim: wr un
  => [|[k m] s w n _ wr IH|k m a s w n _ _ _ _ _ wr IH] //;
  rewrite /keys map_cons cons_uniq -/(keys s) => /andP [fresh un].
- have [sub _] := wrapping_shape wr.
  rewrite adapters_other ?IH //.
  by apply: contra fresh; apply: mem_subseq.
- have [sub same] := wrapping_shape wr.
  have notin : k \notin [seq e.1 | e <- w].
    by apply: contra fresh; apply: mem_subseq.
  rewrite map_cons /= adapters_other // IH // /adapter_at.
  by rewrite lookup_cons_same // same.
Qed.

Lemma init_loraE (self : TrainableLoRA mx) nl target select r alpha
    dropout sc g wrapped g' :
  _lora self = None -> selector target = Some select ->
  TrainableLoRA.wrap_selected select (named_modules (model (llm self)))
                              r alpha dropout sc g = (Ok wrapped, g') ->
  TrainableLoRA.init_lora self nl target r alpha dropout sc g
  = (Ok tt,
     mkTrainableLoRA
       (mkLLM (set_train (update_modules (freeze (model (llm self)))
                                         (as_modules wrapped)) true)
              (_quantization (llm self)))
       (Some (mkLoraConfig
                (if nl < 0 then (model_layers (freeze (model (llm self))))%:Z
                 else nl) target r))
       [seq e.1 | e <- wrapped],
     g').
Proof.
rewrite /TrainableLoRA.init_lora /selector => -> /=.
by case: (String.eqb _ _) => [[<-] ->|];
   last case: (String.eqb _ _) => // [[<-] ->].
Qed.

(** What [init_lora] does on an Unadapted wrapper whose selected slots hold
    linear layers. *)
Lemma init_lora_wraps (self : TrainableLoRA mx) nl target select
    r alpha dropout sc g :
  let slots := named_modules (model (llm self)) in
  _lora self = None -> selector target = Some select ->
  uniq (keys slots) -> 0 <= dropout < 1 -> r != 0%N ->
  all (fun e => select e ==> TrainableLoRA.is_linear e) slots ->
  exists wrapped new g',
    let adapted :=
      mkTrainableLoRA
        (mkLLM (mkModel new true true) (_quantization (llm self)))
        (Some (mkLoraConfig
                 (if nl < 0 then (model_layers (freeze (model (llm self))))%:Z
                  else nl) target r))
        [seq e.1 | e <- slots & select e] in
    [/\ TrainableLoRA.init_lora self nl target r alpha dropout sc g
        = (Ok tt, adapted, g'),
        wrapping select r (sc * (alpha / r%:R)) slots wrapped new &
        TrainableLoRA.lora_modules adapted = wrapped].
Proof.
move=> slots unadapted sel un dr rk lin.
have [wrapped [new [g' [wrap wr]]]] := wrap_selected_ok alpha sc g dr rk lin.
exists wrapped, new, g'; split=> //.
- rewrite (init_loraE _ unadapted sel wrap) /update_modules /=.
  by rewrite (update_selection un (wrapping_selection wr)) (wrapping_keys wr).
- rewrite /TrainableLoRA.lora_modules /= -(wrapping_keys wr).
  exact: (wrapping_lookup un wr).
Qed.

(** X14. [init_lora] on an Unadapted wrapper, with a known value of
    [target_modules] that selects at least one slot, the selected slots
    holding linear (plain or quantized) layers that carry their [name]
    (the wrap reads [linear.name]) under distinct keys, a dropout
    probability in [0, 1) and a rank that is not zero: it returns
    normally; the model is frozen and in training mode; exactly the
    selected slots now hold an adapter, each around the layer the slot
    held, with a zero factor [B], the given rank and the scale
    [scale * (alpha / rank)]; every other slot is as it was; the recorded
    keys are those of the selected slots in order, and the configuration
    records the layer count of the model when [num_layers] is negative. *)
Theorem init_lora_wraps_selected (self : TrainableLoRA mx) nl target select
    r alpha dropout sc g :
  let slots := named_modules (model (llm self)) in
  _lora self = None -> selector target = Some select ->
  has select slots ->
  uniq (keys slots) -> 0 <= dropout < 1 -> r != 0%N ->
  all (fun e => select e ==> TrainableLoRA.is_linear e) slots ->
  all (fun e => select e ==> isSome (slot_name e.2)) slots ->
  exists wrapped new g',
    let adapted :=
      mkTrainableLoRA
        (mkLLM (mkModel new true true) (_quantization (llm self)))
        (Some (mkLoraConfig
                 (if nl < 0 then (model_layers (freeze (model (llm self))))%:Z
                  else nl) target r))
        [seq e.1 | e <- slots & select e] in
    [/\ TrainableLoRA.init_lora self nl target r alpha dropout sc g
        = (Ok tt, adapted, g'),
        wrapping select r (sc * (alpha / r%:R)) slots wrapped new &
        TrainableLoRA.lora_modules adapted = wrapped].
Proof.
move=> slots unadapted sel _ un dr rk lin _.
have [wrapped [new [g' [wrap wr]]]] := wrap_selected_ok alpha sc g dr rk lin.
exists wrapped, new, g'; split=> //.
- rewrite (init_loraE _ unadapted sel wrap) /update_modules /=.
  by rewrite (update_selection un (wrapping_selection wr)) (wrapping_keys wr).
- rewrite /TrainableLoRA.lora_modules /= -(wrapping_keys wr).
  exact: (wrapping_lookup un wr).
Qed.

Lemma wrap_selected_rank0 select slots alpha dropout sc g :
  0 <= dropout < 1 ->
  all (fun e => select e ==> TrainableLoRA.is_linear e) slots ->
  has select slots ->
  exists g',
    TrainableLoRA.wrap_selected select slots 0 alpha dropout sc g
    = (Raise ZeroDivisionError, g').
Proof.
move=> /andP [d0 d1]; elim: slots g => [|[k m] slots IH] g //=.
case sel: (select (k, m)) => /=; last exact: IH.
move=> /andP [lin _] _.
by case: m lin {sel} => [p|q|a|o] //= _;
   rewrite /LoRALinear.init_lora_weights ltNge d0 leNgt d1 /=; eexists.
Qed.

(** X15. [init_lora] with [rank = 0] on an Unadapted wrapper, when a
    linear layer is selected (and the dropout probability is in [0, 1)):
    [alpha / rank] raises [ZeroDivisionError] in the first wrap; by then
    the model is frozen and the configuration is recorded, so the wrapper
    is left marked as adapted without a single adapter, its slots and its
    list of adapter keys as they were. *)
Theorem init_lora_rank_zero (self : TrainableLoRA mx) nl target select alpha
    dropout sc g :
  let slots := named_modules (model (llm self)) in
  _lora self = None -> selector target = Some select ->
  0 <= dropout < 1 ->
  all (fun e => select e ==> TrainableLoRA.is_linear e) slots ->
  has select slots ->
  exists g',
    TrainableLoRA.init_lora self nl target 0 alpha dropout sc g
    = (Raise ZeroDivisionError,
       mkTrainableLoRA
         (mkLLM (freeze (model (llm self))) (_quantization (llm self)))
         (Some (mkLoraConfig
                  (if nl < 0 then (model_layers (freeze (model (llm self))))%:Z
                   else nl) target 0))
         (_lora_modules self),
       g').
Proof.
move=> slots unadapted sel dr lin some.
have [g' bad] := wrap_selected_rank0 alpha sc g dr lin some.
exists g'; move: sel bad.
rewrite /TrainableLoRA.init_lora /selector unadapted /=.
by case: (String.eqb _ _) => [[<-] ->|];
   last case: (String.eqb _ _) => // [[<-] ->].
Qed.

Lemma init_lora_marks (self : TrainableLoRA mx) nl target r alpha dropout
    sc g :
  isSome (_lora (TrainableLoRA.init_lora self nl target r alpha dropout
                                         sc g).1.2).
Proof.
rewrite /TrainableLoRA.init_lora; case un: (_lora self) => [cfg|] /=.
  by rewrite un.
case: (String.eqb _ _) => /=.
  by case: (TrainableLoRA.wrap_selected _ _ _ _ _ _ _) => [[w|e] g'].
case: (String.eqb _ _) => //=.
by case: (TrainableLoRA.wrap_selected _ _ _ _ _ _ _) => [[w|e] g'].
Qed.

(** X16. Whatever a call of [init_lora] did, also when it raised, the
    wrapper counts as adapted afterwards: any further call of [init_lora],
    with any arguments, returns normally and changes neither the wrapper
    nor the random generator. *)
Theorem init_lora_once_only (self : TrainableLoRA mx) nl target r alpha
    dropout sc g nl' target' r' alpha' dropout' sc' g' :
  let once :=
    (TrainableLoRA.init_lora self nl target r alpha dropout sc g).1.2 in
  TrainableLoRA.init_lora once nl' target' r' alpha' dropout' sc' g'
  = (Ok tt, once, g').
Proof.
move=> once; have := init_lora_marks self nl target r alpha dropout sc g.
by rewrite -/once /TrainableLoRA.init_lora; case: (_lora once).
Qed.

Lemma merge_all_restores select r sc slots wrapped new g :
  wrapping select r sc slots wrapped new ->
  all (fun e => select e ==> is_plain e.2) slots ->
  exists2 repl, TrainableLoRA.merge_all wrapped g = (repl, g)
              & selection new repl slots.
Proof.
elim=> [|e s w n /negbTE ns _ IH|k m a s w n sel holds b0 _ _ _ IH] /=.
- by exists [::] => //; exact: selection_nil.
- rewrite ns /= => /IH [repl -> sl].
  by exists repl => //; exact: selection_keep.
- rewrite sel /= => /andP [plain /IH [repl mg sl]].
  case: m plain sel holds => // p _ sel holds.
  rewrite (merge_zero_b g holds b0) /= mg /=.
  by exists ((k, MLinear p) :: repl) => //; exact: selection_swap.
Qed.

(** X17. Adapting and merging at once is a round trip on the module tree:
    for a wrapper made by [from_model], when the selected slots (at least
    one) hold plain linear layers under distinct keys, [init_lora] returns
    normally and [merge_and_unload_lora] right after it gives back every
    slot as it was; the wrapper is Unadapted again, with no adapter keys
    and training mode off, the model stays frozen, and the merge does not
    advance the random generator. *)
Theorem init_then_merge_restores_plain_layers (llm : LLM mx) nl target select
    r alpha dropout sc g :
  let slots := named_modules (model llm) in
  selector target = Some select ->
  has select slots ->
  uniq (keys slots) -> 0 <= dropout < 1 -> r != 0%N ->
  all (fun e => select e ==> is_plain e.2) slots ->
  let adapted :=
    TrainableLoRA.init_lora (TrainableLoRA.from_model llm) nl target r
                            alpha dropout sc g in
  let merged := TrainableLoRA.merge_and_unload_lora adapted.1.2 adapted.2 in
  adapted.1.1 = Ok tt /\
  merged = (mkTrainableLoRA
              (mkLLM (mkModel slots true false) (_quantization llm))
              None [::],
            adapted.2).
Proof.
move=> slots sel _ un dr rk plain.
have lin : all (fun e => select e ==> TrainableLoRA.is_linear e) slots.
  apply: sub_all plain => -[k m] /=; case: (select _) => //=.
  by case: m.
have [wrapped [new [g' [adapt wr lk]]]] :=
  @init_lora_wraps (TrainableLoRA.from_model llm) nl target select
    r alpha dropout sc g (erefl _) sel un dr rk lin.
move=> adapted merged; rewrite /merged /adapted adapt /=; split=> //.
rewrite /TrainableLoRA.merge_and_unload_lora /= lk.
have [repl -> sl] := merge_all_restores g' wr plain.
rewrite /TrainableLoRA.with_model /update_modules /=.
have [_ same] := wrapping_shape wr.
by rewrite (update_selection _ sl) // same.
Qed.

End AdaptFacts.

(** X14 at the model with one attention projection, for the default
    arguments. *)
Lemma init_lora_wraps_selected_witness :
  exists wrapped new g',
    let adapted :=
      mkTrainableLoRA
        (mkLLM (mkModel new true true) None)
        (Some (mkLoraConfig 0 "query_value" 8))
        [:: "layers.0.attention.wq"%string] in
    [/\ TrainableLoRA.init_lora (eng := Toy.engine) Toy.unadapted (-1)
          "query_value" 8 16%:R (1 / 20%:R) 10%:R 0%N
        = (Ok tt, adapted, g'),
        wrapping (fun e => TrainableLoRA.is_query_value e.1) 8
                 (10%:R * (16%:R / 8%:R))
                 (named_modules (model (llm Toy.unadapted))) wrapped new &
        TrainableLoRA.lora_modules adapted = wrapped].
Proof.
have dr : 0 <= (1 / 20%:R : rat) < 1 by vm_compute.
exact: (@init_lora_wraps_selected _ _ Toy.engine Toy.unadapted (-1)
          "query_value" (fun e => TrainableLoRA.is_query_value e.1) 8 16%:R
          (1 / 20%:R) 10%:R 0%N (erefl _) (erefl _) (erefl _) (erefl _) dr
          (erefl _) (erefl _) (erefl _)).
Defined.

(** X15 at the model with one attention projection. *)
Lemma init_lora_rank_zero_witness :
  exists g',
    TrainableLoRA.init_lora (eng := Toy.engine) Toy.unadapted (-1)
      "query_value" 0 16%:R (1 / 20%:R) 10%:R 0%N
    = (Raise ZeroDivisionError,
       mkTrainableLoRA
         (mkLLM (freeze (model (llm Toy.unadapted))) None)
         (Some (mkLoraConfig 0 "query_value" 0)) [::],
       g').
Proof.
have dr : 0 <= (1 / 20%:R : rat) < 1 by vm_compute.
exact: (@init_lora_rank_zero _ _ Toy.engine Toy.unadapted (-1)
          "query_value" (fun e => TrainableLoRA.is_query_value e.1) 16%:R
          (1 / 20%:R) 10%:R 0%N (erefl _) (erefl _) dr (erefl _) (erefl _)).
Defined.

(** X17 at the model with one attention projection. *)
Lemma init_then_merge_restores_plain_layers_witness :
  (TrainableLoRA.init_lora (eng := Toy.engine)
     (TrainableLoRA.from_model Toy.llm_wq) (-1) "query_value" 8 16%:R
     (1 / 20%:R) 10%:R 0%N).1.1 = Ok tt /\
  TrainableLoRA.merge_and_unload_lora
    (TrainableLoRA.init_lora (eng := Toy.engine)
       (TrainableLoRA.from_model Toy.llm_wq) (-1) "query_value" 8 16%:R
       (1 / 20%:R) 10%:R 0%N).1.2
    (TrainableLoRA.init_lora (eng := Toy.engine)
       (TrainableLoRA.from_model Toy.llm_wq) (-1) "query_value" 8 16%:R
       (1 / 20%:R) 10%:R 0%N).2
  = (mkTrainableLoRA
       (mkLLM (mkModel (named_modules (model Toy.llm_wq)) true false) None)
       None [::],
     (TrainableLoRA.init_lora (eng := Toy.engine)
        (TrainableLoRA.from_model Toy.llm_wq) (-1) "query_value" 8 16%:R
        (1 / 20%:R) 10%:R 0%N).2).
Proof.
have dr : 0 <= (1 / 20%:R : rat) < 1 by vm_compute.
exact: (@init_then_merge_restores_plain_layers _ _ Toy.engine Toy.llm_wq
          (-1) "query_value" (fun e => TrainableLoRA.is_query_value e.1) 8
          16%:R (1 / 20%:R) 10%:R 0%N (erefl _) (erefl _) (erefl _) dr
          (erefl _) (erefl _)).
Defined.

(** ** Checkpoints *)

Section CheckpointFacts.
Context {R : realFieldType} {mx : Runtime R}.

Lemma rfind_dot_append (p t : string) i :
  TrainableLoRA.rfind_dot t = Some i ->
  TrainableLoRA.rfind_dot (p ++ t) = Some (String.length p + i)%N.
Proof. by move=> found; elim: p => [|c p IH] //=; rewrite IH. Qed.

Lemma substring_all (t : string) : substring 0 (String.length t) t = t.
Proof. by elim: t => [|c t IH] //=; rewrite IH. Qed.

Lemma substring_append (p t : string) :
  substring (String.length p) (String.length t) (p ++ t) = t.
Proof. by elim: p => [|c p IH] //=; exact: substring_all. Qed.

Lemma length_append (p t : string) :
  String.length (p ++ t) = (String.length p + String.length t)%N.
Proof. by elim: p => [|c p IH] //=; rewrite IH. Qed.

(** The suffix of a name that ends in [".safetensors"] after at least one
    more character. *)
Lemma suffix_safetensors (p : string) :
  p <> EmptyString ->
  TrainableLoRA.suffix (p ++ ".safetensors") = ".safetensors"%string.
Proof.
move=> nonempty; rewrite /TrainableLoRA.suffix.
rewrite (@rfind_dot_append p ".safetensors" 0) // addn0 length_append.
have -> : (0 < String.length p)%N by case: p nonempty.
rewrite addKn -addnBA // -[X in (X < _)%N]addn0 ltn_add2l /=.
exact: (substring_append p ".safetensors").
Qed.

Variables (state : Type) (trainable_parameters : Model mx -> state).
Variable joinpath : string -> string -> string.

(** X18. [save_checkpoint] on an Unadapted wrapper raises
    [AssertionError] and writes nothing.  On an Adapted one it always
    returns normally, having written exactly one file, in the safetensors
    format, with the trainable parameters: [ckpt-<steps>.safetensors] in
    the checkpoint directory for [steps >= 0] and [ckpt-final.safetensors]
    for a negative [steps]; the path returned is the path written.  The
    [.npz] branch and the [ValueError] are never reached. *)
Theorem save_checkpoint_writes_safetensors (self : TrainableLoRA mx)
    (checkpoint_path : string) (steps : int)
    (files : seq (TrainableLoRA.saved_file state)) :
  TrainableLoRA.save_checkpoint trainable_parameters joinpath self
    checkpoint_path steps files
  = if _lora self is None then (Raise AssertionError, files)
    else
      let name :=
        if 0 <= steps then
          ("ckpt-" ++ TrainableLoRA.format_int `|steps|
                   ++ ".safetensors")%string
        else "ckpt-final.safetensors"%string in
      (Ok (joinpath checkpoint_path name),
       rcons files (TrainableLoRA.Safetensors (joinpath checkpoint_path name)
                      (trainable_parameters (model (llm self))))).
Proof.
rewrite /TrainableLoRA.save_checkpoint; case: (_lora self) => [cfg|] //.
case: (0 <= steps) => //=.
have -> : (String "c" (String "k" (String "p" (String "t" (String "-"
             (TrainableLoRA.format_int `|steps| ++ ".safetensors")))))
          = ("ckpt-" ++ TrainableLoRA.format_int `|steps|)
            ++ ".safetensors")%string
  by [].
by rewrite suffix_safetensors.
Qed.

End CheckpointFacts.

(** ** More on evaluation and training *)

Section EvaluateMore.
Context {R : realFieldType} {mx : Runtime R} {eng : Engine mx}.
Context {ds : DatasetOps batch}.

Lemma weighted_sum_bounds (lo hi : R) (results : seq (R * nat)) :
  all (fun r => lo <= r.1 <= hi) results ->
  lo * (\sum_(r <- results) r.2)%:R <= \sum_(r <- results) r.1 * (r.2)%:R
  <= hi * (\sum_(r <- results) r.2)%:R.
Proof.
elim: results => [|r results IH] /=.
  by rewrite !big_nil !mulr0 lexx.
move=> /andP [/andP [l h] /IH /andP [ls hs]].
rewrite !big_cons natrD !mulrDr !lerD //; exact: ler_wpM2r.
Qed.

(** X19. The loss [evaluate] returns lies between the smallest and the
    largest loss of the batches it drew: when the losses of the first
    [num_batches] batches are all in [[lo, hi]] and their token counts do
    not add up to zero, [evaluate] returns a number in [[lo, hi]]. *)
Theorem evaluate_between_extremes (self : TrainableLoRA mx)
    (dataset : Dataset) (batch_size num_batches : nat) (lo hi : R) :
  let batches := (iterate_batches dataset batch_size false).1 in
  let results :=
    [seq model_loss (model (llm self)) b | b <- take num_batches batches] in
  (\sum_(r <- results) r.2 != 0)%N ->
  all (fun r => lo <= r.1 <= hi) results ->
  exists2 v,
    (TrainableLoRA.evaluate self dataset batch_size num_batches).1.1 = Some v
    & lo <= v <= hi.
Proof.
move=> batches results pos bounds.
exists (token_weighted_average results).
  rewrite /TrainableLoRA.evaluate evaluate_loopE /= add0n np_sumE big_map.
  rewrite /TrainableLoRA.np_divide /token_weighted_average !big_map.
  by move: pos; rewrite /results big_map => /negbTE ->.
have tpos : 0 < ((\sum_(r <- results) r.2)%N)%:R :> R by rewrite ltr0n lt0n.
rewrite /token_weighted_average ler_pdivlMr // ler_pdivrMr //.
exact: weighted_sum_bounds.
Qed.

(** X20. Asking [evaluate] for more batches than the iterator has is the
    same as asking for all of them: [num_batches] is only an upper
    bound, and running out of batches is no error. *)
Theorem evaluate_beyond_the_iterator (self : TrainableLoRA mx)
    (dataset : Dataset) (batch_size num_batches : nat) :
  let available := size (iterate_batches dataset batch_size false).1 in
  (available <= num_batches)%N ->
  TrainableLoRA.evaluate self dataset batch_size num_batches
  = TrainableLoRA.evaluate self dataset batch_size available.
Proof.
move=> available enough.
by rewrite /TrainableLoRA.evaluate !evaluate_loopE !take_oversize.
Qed.

End EvaluateMore.

(** X19 on two batches with losses 2 and 3 over 10 and 20 tokens. *)
Lemma evaluate_between_extremes_witness :
  exists2 v : rat,
    (TrainableLoRA.evaluate (eng := Toy.engine) (ds := Toy.dataset)
       Toy.adapted Toy.validation 4 2).1.1 = Some v
    & 2%:R <= v <= 3%:R.
Proof.
have bounds :
  all (fun r : rat * nat => 2%:R <= r.1 <= 3%:R)
      [:: (2%:R, 10%N); (3%:R, 20%N)] by vm_compute.
have tokens :
  (\sum_(r <- [:: (2%:R : rat, 10%N); (3%:R, 20%N)]) r.2 != 0)%N.
  by rewrite !big_cons big_nil.
exact: (@evaluate_between_extremes _ _ Toy.engine Toy.dataset Toy.adapted
          Toy.validation 4 2 2%:R 3%:R tokens bounds).
Defined.

(** X20 on the same two batches, asked for five. *)
Lemma evaluate_beyond_the_iterator_witness :
  TrainableLoRA.evaluate (eng := Toy.engine) (ds := Toy.dataset)
    Toy.adapted Toy.validation 4 5
  = TrainableLoRA.evaluate (eng := Toy.engine) (ds := Toy.dataset)
      Toy.adapted Toy.validation 4 2.
Proof.
exact: (@evaluate_beyond_the_iterator _ _ Toy.engine Toy.dataset Toy.adapted
          Toy.validation 4 5 (erefl _)).
Defined.

Section TrainMore.
Context {R : realFieldType} {mx : Runtime R} {eng : Engine mx}.
Context {ds : DatasetOps batch}.

(** X21. [train] with [batch_size = 0] raises [ZeroDivisionError] before
    the first step, whatever the other arguments: in the division that
    computes the iteration count when [iterations] is 0, and otherwise in
    the one that computes the number of validation batches. *)
Theorem train_zero_batch_size (self : TrainableLoRA mx)
    (dataset_training dataset_validation : Dataset) learning_rate
    epochs iterations report_steps eval_steps eval_callback
    validation_samples debug :
  TrainableLoRA.train self dataset_training dataset_validation 0
    learning_rate epochs iterations report_steps eval_steps eval_callback
    validation_samples debug
  = (Raise ZeroDivisionError, None).
Proof.
rewrite /TrainableLoRA.train /TrainableLoRA.train_iterations.
by case: (iterations == 0%N).
Qed.

Variables (batch_size report_steps eval_steps validation_batches : nat).
Variable eval_callback : option (nat -> option R -> option string).

Lemma train_epoch_steps epoch iterations iters (st : train_state ds) :
  TrainableLoRA.train_epoch batch_size report_steps eval_steps eval_callback
                            validation_batches epoch iterations iters st
  = run_steps batch_size report_steps eval_steps validation_batches
              eval_callback [seq (epoch * iterations + i)%N | i <- iters] st.
Proof.
elim: iters st => [|i iters IH] st //=.
rewrite /run_steps /= mul0n add0n.
by case: (TrainableLoRA.train_step _ _ _ _ _ _ _) => [[[]|e] st'] /=.
Qed.

Lemma run_steps_cat ns1 ns2 (st : train_state ds) :
  run_steps batch_size report_steps eval_steps validation_batches
            eval_callback (ns1 ++ ns2) st
  = let r := run_steps batch_size report_steps eval_steps validation_batches
                       eval_callback ns1 st in
    if r.1 is Ok _ then
      run_steps batch_size report_steps eval_steps validation_batches
                eval_callback ns2 r.2
    else r.
Proof.
elim: ns1 st => [|n ns1 IH] st //=.
rewrite /run_steps /=.
case: (TrainableLoRA.train_step _ _ _ _ _ _ _) => [[[]|e] st'] //=.
exact: IH.
Qed.

(** The steps of all the epochs are numbered in a row. *)
Lemma train_epochs_steps iterations first epochs (st : train_state ds) :
  TrainableLoRA.train_epochs batch_size report_steps eval_steps eval_callback
    validation_batches iterations (iota first epochs) st
  = run_steps batch_size report_steps eval_steps validation_batches
              eval_callback (iota (first * iterations) (epochs * iterations))
              st.
Proof.
elim: epochs first st => [|epochs IH] first st //=.
rewrite train_epoch_steps mulSn iotaD run_steps_cat -iotaDl addn0.
case: (run_steps _ _ _ _ _ _ _) => [[[]|e] st'] //=.
by rewrite IH mulSn addnC.
Qed.

Lemma validated_rcons (w : seq (report R)) l :
  validated (rcons w l)
  = validated w ++ (if l is ValidationLoss n _ then [:: n] else [::]).
Proof. by rewrite /validated -cats1 pmap_cat; case: l. Qed.

Lemma reported_rcons (w : seq (report R)) l :
  reported (rcons w l)
  = reported w ++ (if l is TrainingLoss n _ then [:: n] else [::]).
Proof. by rewrite /reported -cats1 pmap_cat; case: l. Qed.

Lemma train_step_bookkeeping n (st : train_state ds) :
  same_bookkeeping
    (t_self (TrainableLoRA.train_step batch_size report_steps eval_steps
               eval_callback validation_batches n st).2)
    (t_self st).
Proof.
rewrite /TrainableLoRA.train_step /=.
case: (iterate_batches _ _ _) => [[|b bs] d] //=.
rewrite /TrainableLoRA.py_mod.
case: (report_steps == 0%N) => //=.
rewrite /TrainableLoRA.evaluate !evaluate_loopE /=.
case: (n == 0%N) => /=; last case: (eval_steps == 0%N) => /=.
- by case: ifP => _ /=; case: eval_callback => [cb|] //=; case: ifP.
- by case: ifP.
- case: ifP => _ /=; case: ifP => _ //=;
    by case: eval_callback => [cb|] //=; case: ifP.
Qed.

Lemma run_steps_bookkeeping ns (st : train_state ds) :
  same_bookkeeping
    (t_self (run_steps batch_size report_steps eval_steps validation_batches
                       eval_callback ns st).2)
    (t_self st).
Proof.
elim: ns st => [|n ns IH] st //=.
rewrite /run_steps /= mul0n add0n.
have := train_step_bookkeeping n st.
case: (TrainableLoRA.train_step _ _ _ _ _ _ _) => [[[]|e] st'] //= [a b c].
by have [? ? ?] := IH st'; split; etransitivity; eauto.
Qed.

(** With [report_steps = 0] a step raises in [(n + 1) % report_steps],
    after its update and before it writes anything. *)
Lemma train_step_zero_report n (st : train_state ds) :
  (0 < size (iterate_batches (t_training st) batch_size true).1)%N ->
  let r := TrainableLoRA.train_step batch_size 0 eval_steps eval_callback
             validation_batches n st in
  [/\ r.1 = Raise ZeroDivisionError, updates r.2 = (updates st).+1
    & t_written r.2 = t_written st].
Proof.
rewrite /TrainableLoRA.train_step /=.
by case: (iterate_batches _ _ _) => [[|b rest] d].
Qed.

End TrainMore.

Section TrainSchedule.
Context {R : realFieldType} {mx : Runtime R} {eng : Engine mx}.
Context {ds : DatasetOps batch}.
Variables (batch_size report_steps eval_steps validation_batches : nat).
Variable callback : nat -> option R -> option string.
Hypothesis report_steps_pos : report_steps != 0%N.
Hypothesis batches_left :
  forall d : @Dataset _ ds, (0 < size (iterate_batches d batch_size true).1)%N.

Lemma train_step_lines n (st : train_state ds) :
  eval_steps != 0%N ->
  let r := TrainableLoRA.train_step batch_size report_steps eval_steps
             (Some callback) validation_batches n st in
  [/\ r.1 = Ok tt,
      validated (t_written r.2)
      = validated (t_written st) ++ [seq i.+1 | i <- [:: n] & due eval_steps i]
    & reported (t_written r.2)
      = reported (t_written st)
        ++ [seq i.+1 | i <- [:: n] & (report_steps %| i.+1)%N]].
Proof.
move=> eval_steps_pos.
rewrite /TrainableLoRA.train_step /=.
case: (iterate_batches _ _ _) (batches_left (t_training st))
  => [[|b bs] d] //= _.
rewrite /TrainableLoRA.py_mod (negbTE report_steps_pos)
        (negbTE eval_steps_pos) /due /dvdn /=.
by case: (n == 0%N); case: (n.+1 %% report_steps == 0)%N;
   case: (n.+1 %% eval_steps == 0)%N => /=; (try case: ifP => _ /=);
   split=> //; rewrite ?validated_rcons ?reported_rcons /= ?cats0.
Qed.

Lemma run_steps_lines ns (st : train_state ds) :
  eval_steps != 0%N ->
  let r := run_steps batch_size report_steps eval_steps validation_batches
                     (Some callback) ns st in
  [/\ r.1 = Ok tt,
      validated (t_written r.2)
      = validated (t_written st) ++ [seq i.+1 | i <- ns & due eval_steps i]
    & reported (t_written r.2)
      = reported (t_written st)
        ++ [seq i.+1 | i <- ns & (report_steps %| i.+1)%N]].
Proof.
move=> eval_steps_pos.
elim: ns st => [|n ns IH] st /=; first by rewrite !cats0.
rewrite /run_steps /= mul0n add0n.
have [] := train_step_lines n st eval_steps_pos.
case: (TrainableLoRA.train_step _ _ _ _ _ _ _) => out st' /= -> v r.
have [-> -> ->] := IH st'; rewrite v r -!catA; split=> //; congr (_ ++ _).
  by case: (due eval_steps n).
by case: (_ %| _)%N.
Qed.

(** With [eval_steps = 0] the step numbered 0 still validates, and
    returns. *)
Lemma train_step_first (st : train_state ds) :
  let r := TrainableLoRA.train_step batch_size report_steps 0 (Some callback)
             validation_batches 0 st in
  [/\ r.1 = Ok tt, updates r.2 = (updates st).+1
    & validated (t_written r.2) = rcons (validated (t_written st)) 1%N].
Proof.
rewrite /TrainableLoRA.train_step /=.
case: (iterate_batches _ _ _) (batches_left (t_training st))
  => [[|b bs'] d] //= _.
rewrite /TrainableLoRA.py_mod (negbTE report_steps_pos) /=.
by case: ifP => _ /=; case: ifP => _ /=; split=> //;
   rewrite ?validated_rcons /= ?cats0 // cats1.
Qed.

(** With [eval_steps = 0] the step numbered 1 raises in
    [(n + 1) % eval_steps], after its update. *)
Lemma train_step_second (st : train_state ds) :
  let r := TrainableLoRA.train_step batch_size report_steps 0 (Some callback)
             validation_batches 1 st in
  [/\ r.1 = Raise ZeroDivisionError, updates r.2 = (updates st).+1
    & validated (t_written r.2) = validated (t_written st)].
Proof.
rewrite /TrainableLoRA.train_step /=.
case: (iterate_batches _ _ _) (batches_left (t_training st))
  => [[|b bs'] d] //= _.
rewrite /TrainableLoRA.py_mod (negbTE report_steps_pos) /=.
by case: ifP => _ /=; split=> //; rewrite validated_rcons /= cats0.
Qed.

End TrainSchedule.

Section TrainRuns.
Context {R : realFieldType} {mx : Runtime R} {eng : Engine mx}.
Context {ds : DatasetOps batch}.

Lemma steps_from_one (p : pred nat) n :
  [seq i.+1 | i <- iota 0 n & p i.+1] = [seq s <- iota 1 n | p s].
Proof. by rewrite -[1%N]addn0 iotaDl filter_map. Qed.

(** [train], for a batch size that is not zero, as a run of the steps
    [0 .. epochs * k - 1], [k] being the iteration count of an epoch. *)
Lemma trainE (self : TrainableLoRA mx)
    (dataset_training dataset_validation : Dataset) batch_size learning_rate
    epochs iterations report_steps eval_steps eval_callback
    validation_samples debug :
  batch_size != 0%N ->
  let k := if iterations == 0%N then (len dataset_training %/ batch_size)%N
           else iterations in
  let r := run_steps batch_size report_steps eval_steps
             (validation_samples %/ batch_size) eval_callback
             (iota 0 (epochs * k))
             (mkTrainState self (adam_init learning_rate) [::] 0
                           dataset_training dataset_validation [::] 0) in
  TrainableLoRA.train self dataset_training dataset_validation batch_size
    learning_rate epochs iterations report_steps eval_steps eval_callback
    validation_samples debug
  = (r.1, Some r.2).
Proof.
move=> /negbTE bs k r.
rewrite /TrainableLoRA.train /TrainableLoRA.train_iterations
        /TrainableLoRA.py_floordiv bs.
have -> : (if iterations == 0%N then Ok (len dataset_training %/ batch_size)%N
           else Ok iterations) = Ok k :> result nat.
  by rewrite /k; case: (iterations == 0%N).
by rewrite train_epochs_steps mul0n.
Qed.

(** X22. The schedule of a run of [train] that can complete (a callback,
    a batch size, a report interval and an evaluation interval that are
    not zero, a training iterator that always has a batch): steps are
    numbered from 1 across the epochs, up to [epochs * k] for [k]
    iterations per epoch; the validation loss is written at step 1 and at
    every multiple of [eval_steps], and nowhere else; the training loss is
    written at every multiple of [report_steps], and nowhere else. *)
Theorem train_validates_and_reports_on_schedule (self : TrainableLoRA mx)
    (dataset_training dataset_validation : Dataset) batch_size learning_rate
    epochs iterations report_steps eval_steps callback validation_samples
    debug :
  batch_size != 0%N -> report_steps != 0%N -> eval_steps != 0%N ->
  (forall d : @Dataset _ ds,
     (0 < size (iterate_batches d batch_size true).1)%N) ->
  let k := if iterations == 0%N then (len dataset_training %/ batch_size)%N
           else iterations in
  let steps := iota 1 (epochs * k) in
  exists2 st,
    TrainableLoRA.train self dataset_training dataset_validation batch_size
      learning_rate epochs iterations report_steps eval_steps (Some callback)
      validation_samples debug = (Ok tt, Some st)
    & validated (t_written st)
      = [seq s <- steps | (s == 1%N) || (eval_steps %| s)%N]
      /\ reported (t_written st) = [seq s <- steps | (report_steps %| s)%N].
Proof.
move=> bs rs es batches k steps; rewrite trainE // -/k.
set st0 := mkTrainState _ _ _ _ _ _ _ _.
have [] := run_steps_lines (validation_samples %/ batch_size) callback rs
             batches (iota 0 (epochs * k)) st0 es.
case: (run_steps _ _ _ _ _ _ _) => out st /= -> v r; exists st => //.
rewrite v r /= -(steps_from_one (fun s => report_steps %| s)%N).
by rewrite -(steps_from_one (fun s => (s == 1%N) || (eval_steps %| s)%N)).
Qed.

(** X23. [report_steps = 0] does not switch the reports off: with a batch
    size that is not zero and a training batch to draw, as soon as one
    step runs [train] raises [ZeroDivisionError] in
    [(n + 1) % report_steps] of the first step, after one update and
    before anything is written, with or without a callback. *)
Theorem train_zero_report_interval (self : TrainableLoRA mx)
    (dataset_training dataset_validation : Dataset) batch_size learning_rate
    epochs iterations eval_steps eval_callback validation_samples debug :
  batch_size != 0%N ->
  (0 < size (iterate_batches dataset_training batch_size true).1)%N ->
  let k := if iterations == 0%N then (len dataset_training %/ batch_size)%N
           else iterations in
  (0 < epochs * k)%N ->
  exists st,
    [/\ TrainableLoRA.train self dataset_training dataset_validation
          batch_size learning_rate epochs iterations 0 eval_steps
          eval_callback validation_samples debug
        = (Raise ZeroDivisionError, Some st),
        updates st = 1%N & t_written st = [::]].
Proof.
move=> bs batch k steps; rewrite trainE // -/k.
case: (epochs * k)%N steps => [|n] // _.
set st0 := mkTrainState _ _ _ _ _ _ _ _.
have [] := @train_step_zero_report _ _ _ _ batch_size eval_steps
             (validation_samples %/ batch_size) eval_callback 0 st0 batch.
rewrite /run_steps /= mul0n add0n.
by case: (TrainableLoRA.train_step _ _ _ _ _ _ _) => out st /= -> up w;
   exists st.
Qed.

(** X24. [eval_steps = 0] does not switch the validation off either: in a
    run that could otherwise complete, step 1 validates as always; a run
    of at most one step then returns normally, and a longer one raises
    [ZeroDivisionError] in [(n + 1) % eval_steps] of its second step,
    after two updates, the validation of step 1 being the only one
    written. *)
Theorem train_zero_eval_interval (self : TrainableLoRA mx)
    (dataset_training dataset_validation : Dataset) batch_size learning_rate
    epochs iterations report_steps callback validation_samples debug :
  batch_size != 0%N -> report_steps != 0%N ->
  (forall d : @Dataset _ ds,
     (0 < size (iterate_batches d batch_size true).1)%N) ->
  let k := if iterations == 0%N then (len dataset_training %/ batch_size)%N
           else iterations in
  let r := TrainableLoRA.train self dataset_training dataset_validation
             batch_size learning_rate epochs iterations report_steps 0
             (Some callback) validation_samples debug in
  ((epochs * k <= 1)%N ->
   exists st, r = (Ok tt, Some st) /\ updates st = (epochs * k)%N) /\
  ((1 < epochs * k)%N ->
   exists st, [/\ r = (Raise ZeroDivisionError, Some st), updates st = 2%N
                & validated (t_written st) = [:: 1%N]]).
Proof.
move=> bs rs batches k; rewrite trainE // -/k.
set st0 := mkTrainState _ _ _ _ _ _ _ _.
have step0 := train_step_first (validation_samples %/ batch_size) callback
                rs batches.
have step1 := train_step_second (validation_samples %/ batch_size) callback
                rs batches.
case: (epochs * k)%N => [|[|n]] /=; split=> // _.
- by exists st0.
- rewrite /run_steps /= mul0n add0n.
  have [] := step0 st0.
  by case: (TrainableLoRA.train_step _ _ _ _ _ _ _) => out st /= -> up _;
     exists st.
- rewrite /run_steps /= !mul0n !add0n.
  have [] := step0 st0.
  case: (TrainableLoRA.train_step _ _ _ _ _ _ _) => out st /= -> up v.
  have [] := step1 st.
  case: (TrainableLoRA.train_step _ _ _ _ _ _ _) => out' st' /= -> up' v'.
  by exists st'; rewrite up' up v' v.
Qed.

(** X25. [train] never touches the wrapper's own bookkeeping: whenever it
    gets as far as the training loop, whether it then returns or raises,
    the adapter configuration, the list of adapter keys and the
    quantization descriptor are the ones it was called with (only the
    model is updated). *)
Theorem train_keeps_adapter_bookkeeping (self : TrainableLoRA mx)
    (dataset_training dataset_validation : Dataset) batch_size learning_rate
    epochs iterations report_steps eval_steps eval_callback
    validation_samples debug :
  if (TrainableLoRA.train self dataset_training dataset_validation
        batch_size learning_rate epochs iterations report_steps eval_steps
        eval_callback validation_samples debug).2 is Some st
  then [/\ _lora (t_self st) = _lora self,
           _lora_modules (t_self st) = _lora_modules self
         & _quantization (llm (t_self st)) = _quantization (llm self)]
  else True.
Proof.
case bs: (batch_size == 0%N).
  rewrite (eqP bs) /TrainableLoRA.train /TrainableLoRA.train_iterations.
  by case: (iterations == 0%N).
rewrite trainE ?bs //=.
exact: run_steps_bookkeeping.
Qed.

End TrainRuns.

(** X22 on 100 training examples with batch size 4, for three epochs:
    75 steps, reported every 10 and validated every 100 steps. *)
Lemma train_validates_and_reports_on_schedule_witness :
  exists2 st,
    TrainableLoRA.train (eng := Toy.engine) (ds := Toy.dataset) Toy.adapted
      Toy.train100 Toy.validation 4 (10%:R ^- 5) 3 0 10 100
      (Some Toy.no_message) 40 false = (Ok tt, Some st)
    & validated (t_written st)
      = [seq s <- iota 1 (3 * 25) | (s == 1%N) || (100 %| s)%N]
      /\ reported (t_written st) = [seq s <- iota 1 (3 * 25) | (10 %| s)%N].
Proof.
exact: (@train_validates_and_reports_on_schedule _ _ Toy.engine Toy.dataset
          Toy.adapted Toy.train100 Toy.validation 4 (10%:R ^- 5) 3 0 10 100
          Toy.no_message 40 false (erefl _) (erefl _) (erefl _)
          (fun d => erefl _)).
Defined.

(** X23 on the same data. *)
Lemma train_zero_report_interval_witness :
  exists st,
    [/\ TrainableLoRA.train (eng := Toy.engine) (ds := Toy.dataset)
          Toy.adapted Toy.train100 Toy.validation 4 (10%:R ^- 5) 3 0 0 100
          (Some Toy.no_message) 40 false
        = (Raise ZeroDivisionError, Some st),
        updates st = 1%N & t_written st = [::]].
Proof.
exact: (@train_zero_report_interval _ _ Toy.engine Toy.dataset Toy.adapted
          Toy.train100 Toy.validation 4 (10%:R ^- 5) 3 0 100
          (Some Toy.no_message) 40 false (erefl _) (erefl _) (erefl _)).
Defined.

(** X24 on the same data: the second step raises. *)
Lemma train_zero_eval_interval_witness :
  exists st,
    [/\ TrainableLoRA.train (eng := Toy.engine) (ds := Toy.dataset)
          Toy.adapted Toy.train100 Toy.validation 4 (10%:R ^- 5) 3 0 10 0
          (Some Toy.no_message) 40 false
        = (Raise ZeroDivisionError, Some st),
        updates st = 2%N & validated (t_written st) = [:: 1%N]].
Proof.
have [_ raises] :=
  @train_zero_eval_interval _ _ Toy.engine Toy.dataset Toy.adapted
    Toy.train100 Toy.validation 4 (10%:R ^- 5) 3 0 10 Toy.no_message 40
    false (erefl _) (erefl _) (fun d => erefl _).
exact: (raises (erefl _)).
Defined.
